(** * Shallow embedding of the cutting-plan orchestrator of [src/app/main.py]

    The Python service wraps the external [opcut] packer.  This file models
    the pydantic input/output records, the grain transform, the quantity
    expansion, the result assembly and the retry loop of
    [CuttingOptimizer.calculate], with the packer and the wall clock as
    parameters of a Section. *)

From Stdlib Require Import Bool ZArith List String Ascii Lia.
From Stdlib Require Import Decimal DecimalNat Permutation Sorted.
Import ListNotations.
Open Scope string_scope.
Open Scope Z_scope.

(** ** Data model *)

(** The [float] fields of the models (widths, heights, coordinates, the
    cut width, the elapsed time) are only copied, swapped and compared for
    equality by this layer, never computed with, so they are carried as
    [Z]. *)
Definition num := Z.

Inductive grain := Horizontal | Vertical.
Inductive engraved := EHorizontal | EVertical | ENone.

Definition grain_eqb (a b : grain) : bool :=
  match a, b with
  | Horizontal, Horizontal | Vertical, Vertical => true
  | _, _ => false
  end.

(** A Python [dict] with [str] keys, as an association list in insertion
    order: [d[k] = v] replaces the value in place when [k] is present and
    appends otherwise; [d.get(k)] returns [None] for a missing key. *)
Definition dict (V : Type) := list (string * V).

Fixpoint dget {V} (d : dict V) (k : string) : option V :=
  match d with
  | [] => None
  | (k', v) :: d' => if String.eqb k k' then Some v else dget d' k
  end.

Fixpoint dset {V} (d : dict V) (k : string) (v : V) : dict V :=
  match d with
  | [] => [(k, v)]
  | (k', v') :: d' => if String.eqb k k' then (k', v) :: d' else (k', v') :: dset d' k v
  end.

Definition dget_default {V} (d : dict V) (k : string) (dflt : V) : V :=
  match dget d k with Some v => v | None => dflt end.

(** [borders : Dict[str, bool]] *)
Definition bdict := dict bool.

Definition bget (d : bdict) (k : string) (dflt : bool) : bool := dget_default d k dflt.

Definition default_borders : bdict :=
  [("top", false); ("right", false); ("bottom", false); ("left", false)].

Record PanelInput := {
  p_name : string;
  p_width : num;
  p_height : num;
  p_quantity : Z;
  p_grain : grain
}.

Record ItemInput := {
  i_name : string;
  i_width : num;
  i_height : num;
  i_isRotate : bool;
  i_quantity : Z;
  i_grain : grain;
  i_engraved_line : engraved;
  i_borders : bdict
}.

Record UserParams := {
  cut_width : num;
  min_initial_usage : bool;
  panels : list PanelInput;
  items : list ItemInput
}.

(** [common.Panel] and [common.Item] handed to the packer. *)
Record Panel := { panel_id : string; panel_width : num; panel_height : num }.
Record Item := { item_id : string; item_width : num; item_height : num;
                 can_rotate : bool }.

Record Params := {
  op_cut_width : num;
  op_min_initial_usage : bool;
  op_panels : list Panel;
  op_items : list Item
}.

(** ** Decimal rendering of integers, as in f-strings *)

Fixpoint uint_string (d : Decimal.uint) : string :=
  match d with
  | Nil => ""
  | D0 d => String "0" (uint_string d)
  | D1 d => String "1" (uint_string d)
  | D2 d => String "2" (uint_string d)
  | D3 d => String "3" (uint_string d)
  | D4 d => String "4" (uint_string d)
  | D5 d => String "5" (uint_string d)
  | D6 d => String "6" (uint_string d)
  | D7 d => String "7" (uint_string d)
  | D8 d => String "8" (uint_string d)
  | D9 d => String "9" (uint_string d)
  end.

Definition nat_string (n : nat) : string := uint_string (Nat.to_uint n).

Definition z_string (z : Z) : string :=
  if z <? 0 then String "-" (nat_string (Z.to_nat (- z)))
  else nat_string (Z.to_nat z).

(** [f"{name}_{i+1}"] *)
Definition unit_id (name : string) (i : nat) : string :=
  name ++ "_" ++ nat_string (S i).

(** [range(q)] for a Python [int] [q]: empty when [q <= 0]. *)
Definition range (q : Z) : list nat := seq 0 (Z.to_nat q).

(** ** Geometry transform *)

(** The dict returned by [_transform_item_for_calculation]. *)
Record Transformed := {
  t_name : string;
  t_width : num;
  t_height : num;
  t_isRotate : bool;
  t_quantity : Z;
  t_grain : grain;
  t_engraved_line : engraved;
  t_borders : bdict;
  t_original_width : num;
  t_original_height : num
}.

Definition _transform_item_for_calculation (item : ItemInput) (panel : PanelInput)
  : Transformed :=
  let '(cw, ch) :=
    if negb (grain_eqb item.(i_grain) panel.(p_grain))
    then (item.(i_height), item.(i_width))
    else (item.(i_width), item.(i_height)) in
  {| t_name := item.(i_name); t_width := cw; t_height := ch;
     t_isRotate := item.(i_isRotate); t_quantity := item.(i_quantity);
     t_grain := item.(i_grain); t_engraved_line := item.(i_engraved_line);
     t_borders := item.(i_borders);
     t_original_width := item.(i_width); t_original_height := item.(i_height) |}.

(** ** Quantity expansion *)

Definition _expand_panels (ps : list PanelInput) : list Panel :=
  flat_map (fun panel =>
    map (fun i => {| panel_id := unit_id panel.(p_name) i;
                     panel_width := panel.(p_width);
                     panel_height := panel.(p_height) |})
        (range panel.(p_quantity))) ps.

Definition _expand_items (its : list ItemInput) (panel : PanelInput) : list Item :=
  flat_map (fun item =>
    let ti := _transform_item_for_calculation item panel in
    map (fun i => {| item_id := unit_id item.(i_name) i;
                     item_width := ti.(t_width);
                     item_height := ti.(t_height);
                     can_rotate := item.(i_isRotate) |})
        (range item.(i_quantity))) its.

(** ** Metadata indexes *)

(** The value dicts of [_create_item_mapping]. *)
Record ItemDetails := {
  d_name : string;
  d_width : num;
  d_height : num;
  d_original_width : num;
  d_original_height : num;
  d_can_rotate : bool;
  d_grain : grain;
  d_engraved_line : engraved;
  d_borders : bdict
}.

Definition item_details (item : ItemInput) (ti : Transformed) : ItemDetails :=
  {| d_name := item.(i_name); d_width := ti.(t_width); d_height := ti.(t_height);
     d_original_width := item.(i_width); d_original_height := item.(i_height);
     d_can_rotate := item.(i_isRotate); d_grain := item.(i_grain);
     d_engraved_line := item.(i_engraved_line); d_borders := item.(i_borders) |}.

(** One iteration of the outer [for item in items] loop. *)
Definition add_item_units (panel : PanelInput) (m : dict ItemDetails) (item : ItemInput)
  : dict ItemDetails :=
  let ti := _transform_item_for_calculation item panel in
  fold_left (fun m i => dset m (unit_id item.(i_name) i) (item_details item ti))
            (range item.(i_quantity)) m.

Definition _create_item_mapping (its : list ItemInput) (panel : PanelInput)
  : dict ItemDetails :=
  fold_left (add_item_units panel) its [].

Record PanelDetails := {
  pd_name : string;
  pd_width : num;
  pd_height : num;
  pd_grain : grain
}.

Definition _create_panel_mapping (ps : list PanelInput) : dict PanelDetails :=
  fold_left (fun m panel =>
    fold_left (fun m i =>
      dset m (unit_id panel.(p_name) i)
        {| pd_name := panel.(p_name); pd_width := panel.(p_width);
           pd_height := panel.(p_height); pd_grain := panel.(p_grain) |})
      (range panel.(p_quantity)) m) ps [].

(** ** Raw packer result, as produced by [common.result_to_json] *)

Record UsedJson := {
  uj_panel : string;
  uj_item : string;
  uj_x : num;
  uj_y : num;
  uj_rotate : bool;
  uj_width : option num;   (** key ["width"], read with [.get] *)
  uj_height : option num   (** key ["height"], read with [.get] *)
}.

Record UnusedJson := {
  un_panel : string;
  un_width : num;
  un_height : num;
  un_x : num;
  un_y : num
}.

(** [None] for an absent key; [r_cuts = Some None] is an explicit [None].
    The guards [if result] of [transform_result] are implied by the
    key tests and by [.get] defaults, so emptiness is not tracked apart. *)
Record ResultJson := {
  r_used : option (list UsedJson);
  r_unused : option (list UnusedJson);
  r_cuts : option (option (list string))
}.

(** ** Response models *)

Record UsedItem := {
  ui_item_id : string;
  ui_name : string;
  ui_width : num;
  ui_height : num;
  ui_x : num;
  ui_y : num;
  ui_rotate : bool;
  ui_grain : grain;
  ui_engraved_line : engraved;
  ui_borders : bdict
}.

Record UnusedArea := { ua_width : num; ua_height : num; ua_x : num; ua_y : num }.

Record PanelOutput := {
  po_panel_id : string;
  po_panel_name : string;
  po_width : num;
  po_height : num;
  po_used_items : list UsedItem;
  po_unused_areas : list UnusedArea
}.

Record CalculationResponse := {
  success : bool;
  resp_panels : list PanelOutput;
  cuts : list string;
  summary : dict Z;
  error : option string;
  calculation_time : option num
}.

(** An exception: its class name ([type(e).__name__]) and [str(e)]. *)
Record Exn := { exn_type : string; exn_msg : string }.

Definition key_error (k : string) : Exn :=
  {| exn_type := "KeyError"; exn_msg := "'" ++ k ++ "'" |}.

Definition index_error : Exn :=
  {| exn_type := "IndexError"; exn_msg := "list index out of range" |}.

Definition first_panel (ps : list PanelInput) : Exn + PanelInput :=
  match ps with [] => inl index_error | p :: _ => inr p end.

(** ** Result assembly *)

Definition _build_panel_structure (pid : string) (pm : dict PanelDetails)
  : Exn + PanelOutput :=
  match dget pm pid with
  | None => inl (key_error pid)
  | Some pd =>
      inr {| po_panel_id := pid; po_panel_name := pd.(pd_name);
             po_width := pd.(pd_width); po_height := pd.(pd_height);
             po_used_items := []; po_unused_areas := [] |}
  end.

Definition flip_engraved (e : engraved) : engraved :=
  match e with
  | ENone => ENone
  | EHorizontal => EVertical
  | EVertical => EHorizontal
  end.

Definition _transform_used_item_for_display (used_item : UsedJson)
  (item_mapping : dict ItemDetails) (panel : PanelInput) : UsedItem :=
  let iid := used_item.(uj_item) in
  let details := dget item_mapping iid in
  let cutting_width :=
    match used_item.(uj_width) with
    | Some w => w
    | None => match details with Some d => d.(d_width) | None => 0 end
    end in
  let cutting_height :=
    match used_item.(uj_height) with
    | Some h => h
    | None => match details with Some d => d.(d_height) | None => 0 end
    end in
  let g := match details with Some d => d.(d_grain) | None => Vertical end in
  let engrand_line_origin :=
    match details with Some d => d.(d_engraved_line) | None => ENone end in
  let borders :=
    match details with Some d => d.(d_borders) | None => default_borders end in
  let '(engrand_line, borders') :=
    if negb (grain_eqb g panel.(p_grain)) then
      let left := bget borders "left" false in
      let top := bget borders "top" false in
      let right := bget borders "right" false in
      let bottom := bget borders "bottom" false in
      (flip_engraved engrand_line_origin,
       [("top", left); ("right", top); ("bottom", right); ("left", bottom)])
    else (engrand_line_origin, borders) in
  {| ui_item_id := iid;
     ui_name := match details with Some d => d.(d_name) | None => "" end;
     ui_width := cutting_width; ui_height := cutting_height;
     ui_x := used_item.(uj_x); ui_y := used_item.(uj_y);
     ui_rotate := used_item.(uj_rotate); ui_grain := g;
     ui_engraved_line := engrand_line; ui_borders := borders' |}.

(** A small exception monad: [inl] is a raised exception. *)
Definition ret {A} (a : A) : Exn + A := inr a.
Definition bind {A B} (m : Exn + A) (f : A -> Exn + B) : Exn + B :=
  match m with inl e => inl e | inr a => f a end.
Notation "x <- m ;; f" := (bind m (fun x => f))
  (at level 61, m at next level, right associativity).

Fixpoint mfold {A B} (f : A -> B -> Exn + A) (l : list B) (a : A) : Exn + A :=
  match l with
  | [] => ret a
  | b :: l' => a' <- f a b ;; mfold f l' a'
  end.

(** [panels_dict[k]["..."].append(v)], for a key already present. *)
Fixpoint dmodify {V} (d : dict V) (k : string) (f : V -> V) : dict V :=
  match d with
  | [] => []
  | (k', v) :: d' => if String.eqb k k' then (k', f v) :: d' else (k', v) :: dmodify d' k f
  end.

Definition ensure_panel (pm : dict PanelDetails) (pd : dict PanelOutput) (pid : string)
  : Exn + dict PanelOutput :=
  match dget pd pid with
  | Some _ => ret pd
  | None => s <- _build_panel_structure pid pm ;; ret (dset pd pid s)
  end.

Definition push_used (x : UsedItem) (p : PanelOutput) : PanelOutput :=
  {| po_panel_id := p.(po_panel_id); po_panel_name := p.(po_panel_name);
     po_width := p.(po_width); po_height := p.(po_height);
     po_used_items := p.(po_used_items) ++ [x];
     po_unused_areas := p.(po_unused_areas) |}.

Definition push_unused (x : UnusedArea) (p : PanelOutput) : PanelOutput :=
  {| po_panel_id := p.(po_panel_id); po_panel_name := p.(po_panel_name);
     po_width := p.(po_width); po_height := p.(po_height);
     po_used_items := p.(po_used_items);
     po_unused_areas := p.(po_unused_areas) ++ [x] |}.

(** One iteration of the [for used_item in result["used"]] loop. *)
Definition process_used (pm : dict PanelDetails) (im : dict ItemDetails)
  (panel0 : PanelInput) (pd : dict PanelOutput) (u : UsedJson)
  : Exn + dict PanelOutput :=
  let pid := u.(uj_panel) in
  pd' <- ensure_panel pm pd pid ;;
  let enriched := _transform_used_item_for_display u im panel0 in
  ret (dmodify pd' pid (push_used enriched)).

(** One iteration of the [for unused_area in result["unused"]] loop. *)
Definition process_unused (pm : dict PanelDetails) (pd : dict PanelOutput)
  (a : UnusedJson) : Exn + dict PanelOutput :=
  let pid := a.(un_panel) in
  pd' <- ensure_panel pm pd pid ;;
  ret (dmodify pd' pid (push_unused {| ua_width := a.(un_width); ua_height := a.(un_height);
                                       ua_x := a.(un_x); ua_y := a.(un_y) |})).

(** [sorted(values, key=lambda x: x["panel_id"])]: a stable insertion sort. *)
Fixpoint insert_by_id (x : PanelOutput) (l : list PanelOutput) : list PanelOutput :=
  match l with
  | [] => [x]
  | y :: l' => if String.ltb x.(po_panel_id) y.(po_panel_id) then x :: y :: l'
               else y :: insert_by_id x l'
  end.

Definition sort_by_id (l : list PanelOutput) : list PanelOutput :=
  fold_left (fun acc x => insert_by_id x acc) l [].

Definition opt_list {A} (o : option (list A)) : list A :=
  match o with Some l => l | None => [] end.

Definition transform_result (result : ResultJson) (up : UserParams)
  : Exn + CalculationResponse :=
  panel0 <- first_panel up.(panels) ;;
  let item_mapping := _create_item_mapping up.(items) panel0 in
  let panel_mapping := _create_panel_mapping up.(panels) in
  pd1 <- mfold (process_used panel_mapping item_mapping panel0)
               (opt_list result.(r_used)) [] ;;
  pd2 <- mfold (process_unused panel_mapping) (opt_list result.(r_unused)) pd1 ;;
  let panels_list := sort_by_id (map snd pd2) in
  let cs := match result.(r_cuts) with Some (Some l) => l | _ => [] end in
  let summ := [("total_panels_used", Z.of_nat (List.length panels_list));
               ("total_items_placed", Z.of_nat (List.length (opt_list result.(r_used))));
               ("total_unused_areas", Z.of_nat (List.length (opt_list result.(r_unused))))] in
  ret {| success := true; resp_panels := panels_list; cuts := cs; summary := summ;
         error := None; calculation_time := None |}.

(** ** Retry controller *)

Definition _increment_panel_quantities (up : UserParams) (increment : Z) : UserParams :=
  {| cut_width := up.(cut_width);
     min_initial_usage := up.(min_initial_usage);
     panels := map (fun p => {| p_name := p.(p_name); p_width := p.(p_width);
                                p_height := p.(p_height);
                                p_quantity := p.(p_quantity) + increment;
                                p_grain := p.(p_grain) |}) up.(panels);
     items := up.(items) |}.

Definition _get_total_panel_quantity (up : UserParams) : Z :=
  fold_right (fun p s => p.(p_quantity) + s) 0 up.(panels).

Inductive Method := GREEDY | FORWARD_GREEDY | GREEDY_NATIVE | FORWARD_GREEDY_NATIVE.

Definition method_map (m : string) : option Method :=
  if String.eqb m "greedy" then Some GREEDY
  else if String.eqb m "forward_greedy" then Some FORWARD_GREEDY
  else if String.eqb m "greedy_native" then Some GREEDY_NATIVE
  else if String.eqb m "forward_greedy_native" then Some FORWARD_GREEDY_NATIVE
  else None.

(** What [opcut_calculate.calculate] does with one attempt: a result, the
    infeasibility signal [UnresolvableError], or any other exception. *)
Inductive PackOutcome :=
  | Packed (r : ResultJson)
  | Unresolvable (msg : string)
  | Failed (e : Exn).

Definition failure (err : string) (t : option num) : CalculationResponse :=
  {| success := false; resp_panels := []; cuts := []; summary := [];
     error := Some err; calculation_time := t |}.

Definition ceiling_message (total : Z) : string :=
  "UnresolvableError: No valid cutting solution found even with " ++ z_string total ++
  " panels. Try adjusting item dimensions or using different optimization method.".

Definition exn_message (e : Exn) : string := e.(exn_type) ++ ": " ++ e.(exn_msg).

(** The outcome of one pass of the [while True] body. *)
Inductive Step :=
  | Done (r : CalculationResponse)
  | Retry (next : UserParams).

Definition with_time (r : CalculationResponse) (t : num) : CalculationResponse :=
  {| success := r.(success); resp_panels := r.(resp_panels); cuts := r.(cuts);
     summary := r.(summary); error := r.(error); calculation_time := Some t |}.

(** The inputs of one attempt, [panels_list], [items_list] and
    [opcut_params]; [panels[0]] raises on an empty panel list. *)
Definition attempt_params (cur : UserParams) : Exn + Params :=
  panel0 <- first_panel cur.(panels) ;;
  ret {| op_cut_width := cur.(cut_width);
         op_min_initial_usage := cur.(min_initial_usage);
         op_panels := _expand_panels cur.(panels);
         op_items := _expand_items cur.(items) panel0 |}.

Section Orchestrator.

(** The external packer, and the elapsed time [time.time() - start_time]
    observed during attempt [k]. *)
Variable packer : Method -> Params -> PackOutcome.
Variable clock : nat -> num.

Definition attempt (m : Method) (k : nat) (cur : UserParams) : Step :=
  let t := clock k in
  match attempt_params cur with
  | inl e => Done (failure (exn_message e) (Some t))
  | inr op =>
      match packer m op with
      | Packed rj =>
          match transform_result rj cur with
          | inl e => Done (failure (exn_message e) (Some t))
          | inr resp => Done (with_time resp t)
          end
      | Unresolvable _ =>
          let current_total_panels := _get_total_panel_quantity cur in
          if current_total_panels <? 50
          then Retry (_increment_panel_quantities cur 1)
          else Done (failure (ceiling_message current_total_panels) (Some t))
      | Failed e => Done (failure (exn_message e) (Some t))
      end
  end.

(** The [while True] loop, run for at most [fuel] passes; [None] when the
    fuel is spent before the loop returns. *)
Fixpoint calc_loop (m : Method) (fuel k : nat) (cur : UserParams)
  : option CalculationResponse :=
  match fuel with
  | O => None
  | S fuel' =>
      match attempt m k cur with
      | Done r => Some r
      | Retry next => calc_loop m fuel' (S k) next
      end
  end.

(** The parameters of every attempt the loop makes, in order. *)
Fixpoint attempts (m : Method) (fuel k : nat) (cur : UserParams) : list UserParams :=
  match fuel with
  | O => []
  | S fuel' =>
      cur :: match attempt m k cur with
             | Done _ => []
             | Retry next => attempts m fuel' (S k) next
             end
  end.

(** [CuttingOptimizer.calculate]: an unknown method raises [ValueError]
    before the loop. *)
Definition calculate (up : UserParams) (method : string) (fuel : nat)
  : Exn + option CalculationResponse :=
  match method_map method with
  | None => inl {| exn_type := "ValueError"; exn_msg := "Unknown method: " ++ method |}
  | Some m => inr (calc_loop m fuel 0 up)
  end.

Definition set_first_quantity (q : Z) (ps : list PanelInput) : list PanelInput :=
  match ps with
  | [] => []
  | p :: ps' => {| p_name := p.(p_name); p_width := p.(p_width); p_height := p.(p_height);
                   p_quantity := q; p_grain := p.(p_grain) |} :: ps'
  end.

Definition api_error (e : Exn) : CalculationResponse :=
  failure ("API Error: " ++ e.(exn_msg)) None.

(** The endpoint [calculate_optimization].  The request object is shared
    with the caller: the first component is its state after the call. *)
Definition calculate_optimization (user_params : UserParams) (method : string)
  (fuel : nat) : UserParams * option CalculationResponse :=
  match user_params.(panels) with
  | [] => (user_params, Some (api_error index_error))
  | _ =>
      let up' := {| cut_width := user_params.(cut_width);
                    min_initial_usage := user_params.(min_initial_usage);
                    panels := set_first_quantity 1 user_params.(panels);
                    items := user_params.(items) |} in
      (up', match calculate up' method fuel with
            | inl e => Some (api_error e)
            | inr r => r
            end)
  end.

End Orchestrator.

(** ** Sample requests *)

Definition panel_V : PanelInput :=
  {| p_name := "P"; p_width := 2440; p_height := 1220; p_quantity := 1; p_grain := Vertical |}.

Definition panel_H : PanelInput :=
  {| p_name := "A"; p_width := 2440; p_height := 1220; p_quantity := 1; p_grain := Horizontal |}.

(** Scenario B of the spec: a horizontal-grain 500x300 item, engraved
    line horizontal, top border set. *)
Definition item_B : ItemInput :=
  {| i_name := "I"; i_width := 500; i_height := 300; i_isRotate := false;
     i_quantity := 1; i_grain := Horizontal; i_engraved_line := EHorizontal;
     i_borders := [("top", true); ("right", false); ("bottom", false); ("left", false)] |}.

(** A vertical-grain 500x300 item. *)
Definition item_V : ItemInput :=
  {| i_name := "I"; i_width := 500; i_height := 300; i_isRotate := false;
     i_quantity := 1; i_grain := Vertical; i_engraved_line := ENone;
     i_borders := default_borders |}.

Definition request_B : UserParams :=
  {| cut_width := 3; min_initial_usage := false; panels := [panel_V]; items := [item_B] |}.

(** Two panel specs of different grain, the first one horizontal. *)
Definition request_mixed : UserParams :=
  {| cut_width := 3; min_initial_usage := false;
     panels := [panel_H; panel_V]; items := [item_V] |}.

Definition placement (pid iid : string) : UsedJson :=
  {| uj_panel := pid; uj_item := iid; uj_x := 0; uj_y := 0; uj_rotate := false;
     uj_width := None; uj_height := None |}.

Definition raw_result (us : list UsedJson) : ResultJson :=
  {| r_used := Some us;
     r_unused := Some [{| un_panel := "P_1"; un_width := 10; un_height := 10;
                          un_x := 600; un_y := 0 |}];
     r_cuts := None |}.

(** A packer that succeeds with [r] once at least [n] panel units are
    offered, and signals infeasibility before. *)
Definition packer_needing (n : nat) (r : ResultJson) : Method -> Params -> PackOutcome :=
  fun _ op => if Nat.ltb (List.length op.(op_panels)) n then Unresolvable "" else Packed r.

(** A packer that declares every attempt infeasible. *)
Definition packer_infeasible : Method -> Params -> PackOutcome :=
  fun _ _ => Unresolvable "no fit".

Definition packer_failing (e : Exn) : Method -> Params -> PackOutcome := fun _ _ => Failed e.

Definition clock_ticks (k : nat) : num := Z.of_nat k.

(** A request whose only panel spec asks for 3 sheets. *)
Definition request_q3 : UserParams :=
  {| cut_width := 3; min_initial_usage := false;
     panels := [{| p_name := "P"; p_width := 2440; p_height := 1220; p_quantity := 3;
                   p_grain := Vertical |}];
     items := [item_V] |}.

(** A request whose only panel spec asks for 50 sheets. *)
Definition request_50 : UserParams :=
  {| cut_width := 3; min_initial_usage := false;
     panels := [{| p_name := "P"; p_width := 2440; p_height := 1220; p_quantity := 50;
                   p_grain := Vertical |}];
     items := [item_V] |}.

(** ** Vocabulary of the assembly properties *)

(** Order of the response's panels: by [panel_id] as Python compares str. *)
Definition id_le (a b : PanelOutput) : Prop := String.leb a.(po_panel_id) b.(po_panel_id) = true.
Definition id_lt (a b : PanelOutput) : Prop := String.ltb a.(po_panel_id) b.(po_panel_id) = true.

(** The dict [transform_result] appends for an unused region. *)
Definition unused_area_of (a : UnusedJson) : UnusedArea :=
  {| ua_width := a.(un_width); ua_height := a.(un_height); ua_x := a.(un_x); ua_y := a.(un_y) |}.

(** The panel record [_build_panel_structure] makes for [k], holding the
    given placed items and unused areas. *)
Definition panel_of (pm : dict PanelDetails) (k : string) (us : list UsedItem)
  (ua : list UnusedArea) : option PanelOutput :=
  match dget pm k with
  | Some d => Some {| po_panel_id := k; po_panel_name := d.(pd_name); po_width := d.(pd_width);
                      po_height := d.(pd_height); po_used_items := us; po_unused_areas := ua |}
  | None => None
  end.

(** What [panels_dict] holds once the placements [lu] and the unused
    regions [la] are processed: one panel per panel id seen, holding the
    records with that id in their order. *)
Definition panels_dict_inv (pm : dict PanelDetails) (disp : UsedJson -> UsedItem)
  (lu : list UsedJson) (la : list UnusedJson) (pd : dict PanelOutput) : Prop :=
  forall k, dget pd k =
    if existsb (String.eqb k) (map uj_panel lu ++ map un_panel la)%list
    then panel_of pm k (map disp (filter (fun u => String.eqb k u.(uj_panel)) lu))
                       (map unused_area_of (filter (fun a => String.eqb k a.(un_panel)) la))
    else None.

(** The ids [_expand_panels] and [_expand_items] give their units. *)
Definition expanded_panel_ids (ps : list PanelInput) : list string :=
  flat_map (fun p => map (unit_id p.(p_name)) (range p.(p_quantity))) ps.

Definition expanded_item_ids (its : list ItemInput) : list string :=
  flat_map (fun it => map (unit_id it.(i_name)) (range it.(i_quantity))) its.

(** The number of banded edges among the four border keys. *)
Definition banded_edges (b : bdict) : nat :=
  List.length (filter (fun k => bget b k false) ["top"; "right"; "bottom"; "left"]).

(** * Properties *)

(** ** Dictionaries *)

Lemma dget_dset {V} (d : dict V) k k' v :
  dget (dset d k v) k' = if String.eqb k' k then Some v else dget d k'.
Proof.
  induction d as [|[k0 v0] d IH]; simpl.
  - destruct (String.eqb k' k); reflexivity.
  - destruct (String.eqb k k0) eqn:E; simpl.
    + apply String.eqb_eq in E; subst k0.
      destruct (String.eqb k' k); reflexivity.
    + rewrite IH. destruct (String.eqb k' k0) eqn:E'; [|reflexivity].
      apply String.eqb_eq in E'; subst k0.
      destruct (String.eqb k' k) eqn:E''; [|reflexivity].
      apply String.eqb_eq in E''; subst k'. rewrite String.eqb_refl in E. discriminate.
Qed.

Lemma dget_none_notin {V} (d : dict V) k : dget d k = None -> ~ In k (map fst d).
Proof.
  induction d as [|[k0 v0] d IH]; simpl; [auto|].
  destruct (String.eqb k k0) eqn:E; [discriminate|].
  intros H [H'|H']; [subst; rewrite String.eqb_refl in E; discriminate|].
  exact (IH H H').
Qed.

Lemma dget_some_in {V} (d : dict V) k v : dget d k = Some v -> In k (map fst d).
Proof.
  induction d as [|[k0 v0] d IH]; simpl; [discriminate|].
  destruct (String.eqb k k0) eqn:E.
  - apply String.eqb_eq in E. auto.
  - intro H. right. exact (IH H).
Qed.

Lemma keys_dset_new {V} (d : dict V) k v :
  ~ In k (map fst d) -> map fst (dset d k v) = (map fst d ++ [k])%list.
Proof.
  induction d as [|[k0 v0] d IH]; simpl; [reflexivity|].
  intro H. destruct (String.eqb k k0) eqn:E.
  - apply String.eqb_eq in E. subst. exfalso. auto.
  - simpl. rewrite IH; auto.
Qed.

Lemma keys_dmodify {V} (d : dict V) k f : map fst (dmodify d k f) = map fst d.
Proof.
  induction d as [|[k0 v0] d IH]; simpl; [reflexivity|].
  destruct (String.eqb k k0); simpl; congruence.
Qed.

Lemma ensure_panel_keys pm pd pid pd' :
  ensure_panel pm pd pid = inr pd' ->
  (forall x, In x (map fst pd') <-> x = pid \/ In x (map fst pd)) /\
  (NoDup (map fst pd) -> NoDup (map fst pd')).
Proof.
  unfold ensure_panel. destruct (dget pd pid) eqn:G.
  - intro H; injection H as <-. apply dget_some_in in G.
    split; [intro x; split; [auto|intros [->|?]; auto]|auto].
  - unfold _build_panel_structure. destruct (dget pm pid); simpl; [|discriminate].
    intro H; injection H as <-. apply dget_none_notin in G.
    rewrite (keys_dset_new _ _ _ G). split.
    + intro x. rewrite in_app_iff. simpl. intuition.
    + intro ND. apply NoDup_app; auto.
      * constructor; [auto|constructor].
      * intros x Hx Hx'. simpl in Hx'. destruct Hx' as [->|[]]. auto.
Qed.

(** The keys of the panel dict built by the two loops of [transform_result]. *)
Lemma mfold_used_keys pm im p0 l pd pd' :
  mfold (process_used pm im p0) l pd = inr pd' ->
  (forall x, In x (map fst pd') <-> In x (map uj_panel l) \/ In x (map fst pd)) /\
  (NoDup (map fst pd) -> NoDup (map fst pd')).
Proof.
  revert pd. induction l as [|u l IH]; simpl; intro pd.
  - intro H; injection H as <-. split; [intuition|auto].
  - unfold process_used, bind at 1. destruct (ensure_panel pm pd (uj_panel u)) as [e|pd1] eqn:E;
      [discriminate|].
    intro H. destruct (IH _ H) as [Hk Hn].
    destruct (ensure_panel_keys _ _ _ _ E) as [Ek En].
    rewrite keys_dmodify in Hk, Hn. split.
    + intro x. rewrite Hk, Ek. intuition.
    + auto.
Qed.

Lemma mfold_unused_keys pm l pd pd' :
  mfold (process_unused pm) l pd = inr pd' ->
  (forall x, In x (map fst pd') <-> In x (map un_panel l) \/ In x (map fst pd)) /\
  (NoDup (map fst pd) -> NoDup (map fst pd')).
Proof.
  revert pd. induction l as [|a l IH]; simpl; intro pd.
  - intro H; injection H as <-. split; [intuition|auto].
  - unfold process_unused, bind at 1. destruct (ensure_panel pm pd (un_panel a)) as [e|pd1] eqn:E;
      [discriminate|].
    intro H. destruct (IH _ H) as [Hk Hn].
    destruct (ensure_panel_keys _ _ _ _ E) as [Ek En].
    rewrite keys_dmodify in Hk, Hn. split.
    + intro x. rewrite Hk, Ek. intuition.
    + auto.
Qed.

Lemma insert_by_id_length x l : List.length (insert_by_id x l) = S (List.length l).
Proof.
  induction l as [|y l IH]; simpl; [reflexivity|].
  destruct (String.ltb _ _); simpl; congruence.
Qed.

Lemma sort_by_id_length l : List.length (sort_by_id l) = List.length l.
Proof.
  unfold sort_by_id.
  assert (G : forall acc, List.length (fold_left (fun acc x => insert_by_id x acc) l acc)
                          = (List.length acc + List.length l)%nat).
  { induction l as [|x l IH]; intro acc; simpl; [lia|].
    rewrite IH, insert_by_id_length. lia. }
  rewrite G. reflexivity.
Qed.

Lemma nodup_same_length (l1 l2 : list string) :
  NoDup l1 -> NoDup l2 -> (forall x, In x l1 <-> In x l2) -> List.length l1 = List.length l2.
Proof.
  intros N1 N2 H. apply Nat.le_antisymm; apply NoDup_incl_length; auto;
    intros x Hx; apply H; auto.
Qed.

(** ** Identifiers *)

Fixpoint no_us (s : string) : Prop :=
  match s with
  | EmptyString => True
  | String c s' => c <> "_"%char /\ no_us s'
  end.

Lemma uint_string_no_us d : no_us (uint_string d).
Proof. induction d; simpl; split; try discriminate; assumption. Qed.

Lemma no_us_app_us x y : ~ no_us (x ++ String "_" y).
Proof.
  induction x as [|c x IH]; simpl.
  - intros [H _]. apply H. reflexivity.
  - intros [_ H]. exact (IH H).
Qed.

Lemma app_us_inj a b s1 s2 :
  no_us s1 -> no_us s2 -> a ++ String "_" s1 = b ++ String "_" s2 -> a = b /\ s1 = s2.
Proof.
  revert b. induction a as [|c a IH]; intros [|c' b] N1 N2 H; simpl in H.
  - injection H. auto.
  - injection H as _ H. subst s1. exfalso. exact (no_us_app_us _ _ N1).
  - injection H as _ H. subst s2. exfalso. exact (no_us_app_us _ _ N2).
  - injection H as -> H. destruct (IH b N1 N2 H) as [-> ->]. auto.
Qed.

Lemma unit_id_name_inj a b i j : unit_id a i = unit_id b j -> a = b.
Proof.
  unfold unit_id, nat_string. simpl. intro H.
  exact (proj1 (app_us_inj _ _ _ _ (uint_string_no_us _) (uint_string_no_us _) H)).
Qed.

Lemma map_range_shift {A} (f : nat -> A) q :
  map (fun i => f (S i)) (range q) = map f (seq 1 (Z.to_nat q)).
Proof.
  unfold range. rewrite <- seq_shift, map_map. reflexivity.
Qed.

(** ** C8: quantity expansion *)

(** C8. Expanding a panel or item spec of quantity [Q] gives, in order, the
    units [{name}_1 .. {name}_Q] ([Z.to_nat Q] of them, none for [Q <= 0]);
    the expansion of a list is the concatenation of these blocks; and as a
    function of its input alone it gives the same list every time. *)
Theorem expansion_ids_deterministic :
  (forall ps : list PanelInput,
     map panel_id (_expand_panels ps)
     = flat_map (fun p => map (fun j => p.(p_name) ++ "_" ++ nat_string j)
                              (seq 1 (Z.to_nat p.(p_quantity)))) ps) /\
  (forall (its : list ItemInput) (panel : PanelInput),
     map item_id (_expand_items its panel)
     = flat_map (fun it => map (fun j => it.(i_name) ++ "_" ++ nat_string j)
                               (seq 1 (Z.to_nat it.(i_quantity)))) its) /\
  (forall p : PanelInput, List.length (_expand_panels [p]) = Z.to_nat p.(p_quantity)) /\
  (forall (it : ItemInput) (panel : PanelInput),
     List.length (_expand_items [it] panel) = Z.to_nat it.(i_quantity)) /\
  (forall ps ps', ps = ps' -> _expand_panels ps = _expand_panels ps') /\
  (forall its its' panel, its = its' -> _expand_items its panel = _expand_items its' panel).
Proof.
  split; [|split; [|split; [|split; [|split]]]].
  - induction ps as [|p ps IH]; simpl; [reflexivity|].
    rewrite map_app, IH, map_map. f_equal.
    apply (map_range_shift (fun j => p_name p ++ "_" ++ nat_string j)).
  - intros its panel. induction its as [|it its IH]; simpl; [reflexivity|].
    rewrite map_app, IH, map_map. f_equal.
    apply (map_range_shift (fun j => i_name it ++ "_" ++ nat_string j)).
  - intro p. simpl. rewrite app_nil_r, length_map. unfold range. apply length_seq.
  - intros it panel. simpl. rewrite app_nil_r, length_map. unfold range. apply length_seq.
  - intros ? ? ->. reflexivity.
  - intros ? ? ? ->. reflexivity.
Qed.

(** ** C7: summary counts *)

(** C7. Whenever [transform_result] succeeds, [total_items_placed] is the
    number of placement records of the raw result and [total_panels_used]
    (the number of panels in the response) is the number of distinct panel
    unit ids among the placements and the unused regions. *)
Theorem transform_result_summary (rj : ResultJson) (up : UserParams)
  (resp : CalculationResponse) :
  transform_result rj up = inr resp ->
  dget resp.(summary) "total_items_placed"
    = Some (Z.of_nat (List.length (opt_list rj.(r_used)))) /\
  dget resp.(summary) "total_panels_used"
    = Some (Z.of_nat (List.length resp.(resp_panels))) /\
  List.length resp.(resp_panels)
    = List.length (nodup string_dec (map uj_panel (opt_list rj.(r_used))
                                     ++ map un_panel (opt_list rj.(r_unused)))).
Proof.
  unfold transform_result, bind. destruct (first_panel (panels up)) as [e|p0]; [discriminate|].
  destruct (mfold (process_used _ _ p0) (opt_list (r_used rj)) []) as [e|pd1] eqn:E1;
    [discriminate|].
  destruct (mfold (process_unused _) (opt_list (r_unused rj)) pd1) as [e|pd2] eqn:E2;
    [discriminate|].
  intro H. injection H as <-. simpl. split; [reflexivity|split; [reflexivity|]].
  rewrite sort_by_id_length, length_map, <- (length_map fst pd2).
  destruct (mfold_used_keys _ _ _ _ _ _ E1) as [K1 N1].
  destruct (mfold_unused_keys _ _ _ _ E2) as [K2 N2].
  apply nodup_same_length.
  - apply N2, N1. constructor.
  - apply NoDup_nodup.
  - intro x. rewrite K2, K1, nodup_In, in_app_iff. simpl. intuition.
Qed.

(** ** C1: grain transform and its inverse *)

Lemma dget_fold_units (l : list nat) (f : nat -> string) (v : ItemDetails) m k :
  dget (fold_left (fun m i => dset m (f i) v) l m) k
  = if existsb (fun i => String.eqb k (f i)) l then Some v else dget m k.
Proof.
  revert m. induction l as [|i l IH]; intro m; simpl; [reflexivity|].
  rewrite IH, dget_dset. destruct (String.eqb k (f i)); simpl;
    destruct (existsb _ l); reflexivity.
Qed.

Lemma item_mapping_other (panel : PanelInput) (l : list ItemInput) m name i :
  ~ In name (map i_name l) ->
  dget (fold_left (add_item_units panel) l m) (unit_id name i) = dget m (unit_id name i).
Proof.
  revert m. induction l as [|it l IH]; intros m Hn; simpl in *; [reflexivity|].
  rewrite IH by tauto. unfold add_item_units. rewrite dget_fold_units.
  destruct (existsb _ _) eqn:E; [|reflexivity].
  apply existsb_exists in E. destruct E as [j [_ Hj]].
  apply String.eqb_eq, unit_id_name_inj in Hj. exfalso. apply Hn. left. symmetry. exact Hj.
Qed.

Lemma item_mapping_lookup (panel : PanelInput) (l : list ItemInput) m it i :
  NoDup (map i_name l) -> In it l -> (i < Z.to_nat it.(i_quantity))%nat ->
  dget (fold_left (add_item_units panel) l m) (unit_id it.(i_name) i)
  = Some (item_details it (_transform_item_for_calculation it panel)).
Proof.
  revert m. induction l as [|it' l IH]; intros m ND Hin Hi; simpl in *; [contradiction|].
  inversion ND as [|? ? Hn ND']; subst.
  destruct Hin as [<-|Hin].
  - rewrite item_mapping_other by exact Hn.
    unfold add_item_units. rewrite dget_fold_units.
    replace (existsb _ _) with true; [reflexivity|].
    symmetry. apply existsb_exists. exists i. split.
    + unfold range. apply in_seq. lia.
    + apply String.eqb_refl.
  - apply IH; assumption.
Qed.

(** C1 (as amended).  Take the item index of a request and a placement
    record of the packer for the unit [{name}_{i+1}] of an item spec (the
    records of [result_to_json] carry no width or height).  The placed item
    shown keeps the spec's name and grain.  When the item's grain equals the
    reference panel's grain, the width, height, engraved line and borders
    shown are the spec's own.  When they differ, the engraved line shown is
    the spec's flipped and the borders are the spec's rotated 90 degrees
    clockwise (top := left, right := top, bottom := right, left := bottom). *)
Theorem display_restores_metadata (its : list ItemInput) (panel : PanelInput)
  (it : ItemInput) (i : nat) (u : UsedJson) :
  NoDup (map i_name its) -> In it its -> (i < Z.to_nat it.(i_quantity))%nat ->
  u.(uj_item) = unit_id it.(i_name) i -> u.(uj_width) = None -> u.(uj_height) = None ->
  let d := _transform_used_item_for_display u (_create_item_mapping its panel) panel in
  d.(ui_item_id) = unit_id it.(i_name) i /\ d.(ui_name) = it.(i_name) /\
  d.(ui_grain) = it.(i_grain) /\
  (grain_eqb it.(i_grain) panel.(p_grain) = true ->
     d.(ui_width) = it.(i_width) /\ d.(ui_height) = it.(i_height) /\
     d.(ui_engraved_line) = it.(i_engraved_line) /\ d.(ui_borders) = it.(i_borders)) /\
  (grain_eqb it.(i_grain) panel.(p_grain) = false ->
     d.(ui_engraved_line) = flip_engraved it.(i_engraved_line) /\
     d.(ui_borders) = [("top", bget it.(i_borders) "left" false);
                       ("right", bget it.(i_borders) "top" false);
                       ("bottom", bget it.(i_borders) "right" false);
                       ("left", bget it.(i_borders) "bottom" false)]).
Proof.
  intros ND Hin Hi Hid Hw Hh d. subst d.
  unfold _transform_used_item_for_display, _create_item_mapping.
  rewrite Hid, Hw, Hh, (item_mapping_lookup panel its [] it i ND Hin Hi).
  unfold item_details, _transform_item_for_calculation.
  destruct (grain_eqb (i_grain it) (p_grain panel)) eqn:G; simpl; rewrite G; simpl.
  - repeat split; try reflexivity; discriminate.
  - repeat split; try reflexivity; discriminate.
Qed.

(** C1 (as stated fails).  Scenario B: the horizontal-grain 500x300 item on
    a vertical-grain panel is shown 300 wide and 500 high, with a vertical
    engraved line and without its top border, so the round trip does not
    give back the spec's width, height, engraved line or borders. *)
Lemma roundtrip_counterexample :
  let d := _transform_used_item_for_display (placement "P_1" "I_1")
             (_create_item_mapping [item_B] panel_V) panel_V in
  d.(ui_width) <> item_B.(i_width) /\ d.(ui_height) <> item_B.(i_height) /\
  d.(ui_engraved_line) <> item_B.(i_engraved_line) /\
  bget d.(ui_borders) "top" false <> bget item_B.(i_borders) "top" false.
Proof. vm_compute. repeat split; discriminate. Qed.

(** ** C3: which panel the grain transform compares with *)

(** C3 (as amended).  The item units of an attempt are exactly the units
    [{name}_{i+1}] of the item specs, each with width and height swapped
    iff the item's grain differs from the grain of the FIRST panel spec of
    the request, whatever panel the packer later puts the unit on. *)
Theorem items_oriented_by_first_panel (cur : UserParams) (p0 : PanelInput)
  (rest : list PanelInput) (op : Params) :
  cur.(panels) = p0 :: rest -> attempt_params cur = inr op ->
  forall u, In u op.(op_items) <->
    exists it i, In it cur.(items) /\ (i < Z.to_nat it.(i_quantity))%nat /\
      u = {| item_id := unit_id it.(i_name) i;
             item_width := if grain_eqb it.(i_grain) p0.(p_grain)
                           then it.(i_width) else it.(i_height);
             item_height := if grain_eqb it.(i_grain) p0.(p_grain)
                            then it.(i_height) else it.(i_width);
             can_rotate := it.(i_isRotate) |}.
Proof.
  intros Hp Ha u. unfold attempt_params in Ha. rewrite Hp in Ha. simpl in Ha.
  injection Ha as <-. simpl. unfold _expand_items. rewrite in_flat_map.
  unfold _transform_item_for_calculation.
  split.
  - intros [it [Hit Hu]]. apply in_map_iff in Hu. destruct Hu as [i [<- Hi]].
    exists it, i. unfold range in Hi. apply in_seq in Hi.
    split; [exact Hit|split; [lia|]].
    destruct (grain_eqb (i_grain it) (p_grain p0)); reflexivity.
  - intros [it [i [Hit [Hi ->]]]]. exists it. split; [exact Hit|].
    apply in_map_iff. exists i. split.
    + destruct (grain_eqb (i_grain it) (p_grain p0)); reflexivity.
    + unfold range. apply in_seq. lia.
Qed.

(** C3 (as stated fails).  With a horizontal first panel spec and a
    vertical second one, a vertical-grain 500x300 item is handed to the
    packer as 300x500 although its grain equals that of the second panel
    spec, and the packer may place it on that panel's unit [P_1]: the run
    below succeeds with [I_1] shown on [P_1]. *)
Lemma per_panel_transform_counterexample :
  In panel_V request_mixed.(panels) /\ grain_eqb item_V.(i_grain) panel_V.(p_grain) = true /\
  (exists op, attempt_params request_mixed = inr op /\
     In {| item_id := "I_1"; item_width := 300; item_height := 500; can_rotate := false |}
        op.(op_items)) /\
  (exists r, calc_loop (packer_needing 0 (raw_result [placement "P_1" "I_1"])) clock_ticks
               GREEDY 1 0 request_mixed = Some r /\
     r.(success) = true /\
     map (fun p => (p.(po_panel_id), map ui_item_id p.(po_used_items))) r.(resp_panels)
     = [("P_1", ["I_1"])]).
Proof.
  split; [simpl; auto|split; [reflexivity|split]].
  - eexists. split; [vm_compute; reflexivity|]. simpl. auto.
  - eexists. split; [vm_compute; reflexivity|]. vm_compute. split; reflexivity.
Qed.

(** ** C6: placements of unknown item units *)

Lemma ensure_panel_ok pm pd pid :
  dget pm pid <> None -> exists pd', ensure_panel pm pd pid = inr pd'.
Proof.
  intro H. unfold ensure_panel. destruct (dget pd pid); [eexists; reflexivity|].
  unfold _build_panel_structure. destruct (dget pm pid); [|contradiction].
  simpl. eexists. reflexivity.
Qed.

Lemma mfold_used_ok pm im p0 l pd :
  (forall u, In u l -> dget pm u.(uj_panel) <> None) ->
  exists pd', mfold (process_used pm im p0) l pd = inr pd'.
Proof.
  revert pd. induction l as [|u l IH]; intros pd H; simpl; [eexists; reflexivity|].
  destruct (ensure_panel_ok pm pd (uj_panel u)) as [pd1 E]; [apply H; simpl; auto|].
  unfold process_used. rewrite E. simpl. apply IH. intros u' Hu'. apply H. simpl. auto.
Qed.

Lemma mfold_unused_ok pm l pd :
  (forall a, In a l -> dget pm a.(un_panel) <> None) ->
  exists pd', mfold (process_unused pm) l pd = inr pd'.
Proof.
  revert pd. induction l as [|a l IH]; intros pd H; simpl; [eexists; reflexivity|].
  destruct (ensure_panel_ok pm pd (un_panel a)) as [pd1 E]; [apply H; simpl; auto|].
  unfold process_unused. rewrite E. simpl. apply IH. intros a' Ha'. apply H. simpl. auto.
Qed.

(** C6 (as amended).  A placement whose item unit id is missing from the
    item index does not make the assembly fail: it is shown with default
    metadata (empty name, grain vertical, engraved line none, all borders
    false, width and height from the record or else 0).  The assembly
    succeeds as soon as the request has a panel spec and every panel id of
    the raw result is in the panel index, whatever the item ids are. *)
Theorem unknown_item_defaults :
  (forall (u : UsedJson) (im : dict ItemDetails) (panel : PanelInput),
     dget im u.(uj_item) = None ->
     _transform_used_item_for_display u im panel
     = {| ui_item_id := u.(uj_item); ui_name := "";
          ui_width := match u.(uj_width) with Some w => w | None => 0 end;
          ui_height := match u.(uj_height) with Some h => h | None => 0 end;
          ui_x := u.(uj_x); ui_y := u.(uj_y); ui_rotate := u.(uj_rotate);
          ui_grain := Vertical; ui_engraved_line := ENone;
          ui_borders := default_borders |}) /\
  (forall (rj : ResultJson) (up : UserParams),
     up.(panels) <> [] ->
     (forall u, In u (opt_list rj.(r_used)) ->
        dget (_create_panel_mapping up.(panels)) u.(uj_panel) <> None) ->
     (forall a, In a (opt_list rj.(r_unused)) ->
        dget (_create_panel_mapping up.(panels)) a.(un_panel) <> None) ->
     exists resp, transform_result rj up = inr resp /\ resp.(success) = true).
Proof.
  split.
  - intros u im panel H. unfold _transform_used_item_for_display. rewrite H.
    destruct (p_grain panel); reflexivity.
  - intros rj up Hne Hu Ha. unfold transform_result.
    destruct (panels up) as [|p0 ps] eqn:Hp; [contradiction|]. simpl.
    rewrite <- Hp in *.
    destruct (mfold_used_ok _ (_create_item_mapping (items up) p0) p0 _ [] Hu) as [pd1 E1].
    rewrite E1. simpl.
    destruct (mfold_unused_ok _ _ pd1 Ha) as [pd2 E2]. rewrite E2. simpl.
    eexists. split; reflexivity.
Qed.

(** C6 (as stated fails).  A raw result placing the unknown unit [X_1]
    is assembled into a successful response that shows [X_1]. *)
Lemma unknown_item_counterexample :
  dget (_create_item_mapping request_B.(items) panel_V) "X_1" = None /\
  exists resp, transform_result (raw_result [placement "P_1" "X_1"]) request_B = inr resp /\
    resp.(success) = true /\
    existsb (fun p => existsb (fun x => String.eqb x.(ui_item_id) "X_1") p.(po_used_items))
            resp.(resp_panels) = true.
Proof.
  split; [vm_compute; reflexivity|].
  eexists. split; [vm_compute; reflexivity|]. vm_compute. split; reflexivity.
Qed.

(** ** The retry loop *)

Section Loop.

Variable packer : Method -> Params -> PackOutcome.
Variable clock : nat -> num.
Variable m : Method.

Lemma attempt_retry_inv k cur next :
  attempt packer clock m k cur = Retry next ->
  next = _increment_panel_quantities cur 1 /\ _get_total_panel_quantity cur < 50 /\
  cur.(panels) <> [].
Proof.
  unfold attempt, attempt_params.
  destruct (panels cur) as [|p0 ps] eqn:Hp; simpl; [discriminate|].
  destruct (packer m _) as [rj|msg|e]; [|now destruct (_ <? 50) eqn:L; [|discriminate];
    intro H; injection H as <-; apply Z.ltb_lt in L; repeat split; congruence|discriminate].
  destruct (transform_result rj cur); discriminate.
Qed.

Lemma total_increment cur inc :
  _get_total_panel_quantity (_increment_panel_quantities cur inc)
  = _get_total_panel_quantity cur + inc * Z.of_nat (List.length cur.(panels)).
Proof.
  unfold _get_total_panel_quantity, _increment_panel_quantities. simpl.
  induction (panels cur) as [|p ps IH]; simpl; [lia|]. rewrite IH. lia.
Qed.

Lemma attempts_head fuel k cur b l :
  attempts packer clock m fuel k cur = b :: l -> b = cur.
Proof. destruct fuel; simpl; [discriminate|]. intro H. injection H. auto. Qed.

Lemma attempts_consecutive fuel k cur l1 a b l2 :
  attempts packer clock m fuel k cur = (l1 ++ a :: b :: l2)%list ->
  exists k', attempt packer clock m k' a = Retry b.
Proof.
  revert k cur l1. induction fuel as [|fuel IH]; intros k cur l1; simpl.
  - intro H. apply app_cons_not_nil in H. contradiction.
  - destruct l1 as [|x l1]; simpl; intro H; injection H as -> H.
    + exists k. destruct (attempt packer clock m k a) as [r|next]; [discriminate|].
      apply attempts_head in H. subst. reflexivity.
    + destruct (attempt packer clock m k x) as [r|next].
      * apply app_cons_not_nil in H. contradiction.
      * exact (IH _ _ _ H).
Qed.

Lemma retry_step_total k cur next :
  attempt packer clock m k cur = Retry next ->
  _get_total_panel_quantity cur < 50 /\
  _get_total_panel_quantity cur < _get_total_panel_quantity next.
Proof.
  intro H. destruct (attempt_retry_inv _ _ _ H) as [-> [L Ne]].
  rewrite total_increment. destruct (panels cur); [contradiction|]. simpl. lia.
Qed.

End Loop.

(** ** C4: retry monotonicity and termination *)

(** C4. On the infeasibility signal with a total panel quantity below 50
    the loop retries with [_increment_panel_quantities cur 1]; a retry only
    happens then, it adds exactly 1 to every panel spec's quantity and the
    total grows strictly (the panel list is not empty, else [panels[0]]
    fails before the packer is called); so along the attempts of a run the
    total strictly increases, and the loop returns within
    [Z.to_nat (50 - total) + 1] passes. *)
Theorem retry_monotone_terminates (packer : Method -> Params -> PackOutcome)
  (clock : nat -> num) (m : Method) :
  (forall k cur op msg, attempt_params cur = inr op -> packer m op = Unresolvable msg ->
     _get_total_panel_quantity cur < 50 ->
     attempt packer clock m k cur = Retry (_increment_panel_quantities cur 1)) /\
  (forall k cur next, attempt packer clock m k cur = Retry next ->
     cur.(panels) <> [] /\ _get_total_panel_quantity cur < 50 /\
     map p_quantity next.(panels) = map (fun q => q + 1) (map p_quantity cur.(panels)) /\
     _get_total_panel_quantity cur < _get_total_panel_quantity next) /\
  (forall fuel k cur l1 a b l2,
     attempts packer clock m fuel k cur = (l1 ++ a :: b :: l2)%list ->
     _get_total_panel_quantity a < _get_total_panel_quantity b) /\
  (forall fuel k cur, (Z.to_nat (50 - _get_total_panel_quantity cur) < fuel)%nat ->
     calc_loop packer clock m fuel k cur <> None).
Proof.
  split; [|split; [|split]].
  - intros k cur op msg Ha Hp L. unfold attempt. rewrite Ha, Hp.
    apply Z.ltb_lt in L. rewrite L. reflexivity.
  - intros k cur next H.
    destruct (attempt_retry_inv _ _ _ _ _ _ H) as [-> [L Ne]].
    destruct (retry_step_total _ _ _ _ _ _ H) as [_ Lt].
    split; [exact Ne|split; [exact L|split; [|exact Lt]]].
    unfold _increment_panel_quantities. simpl. rewrite !map_map. reflexivity.
  - intros fuel k cur l1 a b l2 H.
    destruct (attempts_consecutive _ _ _ _ _ _ _ _ _ _ H) as [k' Hk'].
    exact (proj2 (retry_step_total _ _ _ _ _ _ Hk')).
  - induction fuel as [|fuel IH]; intros k cur Hf; [lia|]. simpl.
    destruct (attempt packer clock m k cur) as [r|next] eqn:E; [discriminate|].
    destruct (retry_step_total _ _ _ _ _ _ E) as [L Lt].
    apply IH. lia.
Qed.

(** ** C5: ceiling exhaustion *)

(** C5. When the attempt reaches the packer, the packer signals
    infeasibility and the total panel quantity is 50 or more, the loop
    returns a failure response (no retry, no exception) whose error names
    that total; with a total of 50 the message contains "50". *)
Theorem ceiling_failure (packer : Method -> Params -> PackOutcome) (clock : nat -> num)
  (m : Method) (k fuel : nat) (cur : UserParams) (op : Params) (msg : string) :
  attempt_params cur = inr op -> packer m op = Unresolvable msg ->
  50 <= _get_total_panel_quantity cur ->
  calc_loop packer clock m (S fuel) k cur
    = Some (failure (ceiling_message (_get_total_panel_quantity cur)) (Some (clock k))) /\
  (exists pre post, ceiling_message (_get_total_panel_quantity cur)
                    = pre ++ z_string (_get_total_panel_quantity cur) ++ post) /\
  (_get_total_panel_quantity cur = 50 ->
     exists pre post, ceiling_message (_get_total_panel_quantity cur) = pre ++ "50" ++ post).
Proof.
  intros Ha Hp L. split; [|split].
  - simpl. unfold attempt. rewrite Ha, Hp.
    replace (_get_total_panel_quantity cur <? 50) with false by (symmetry; apply Z.ltb_ge; lia).
    reflexivity.
  - eexists. eexists. unfold ceiling_message. reflexivity.
  - intro E. rewrite E. eexists. eexists. unfold ceiling_message. reflexivity.
Qed.

(** ** C9: other packer failures *)

(** C9. Any other failure of the packer ends the loop at once: a single
    attempt, and a failure response carrying the exception's class name
    and message and the elapsed time. *)
Theorem other_failure_terminal (packer : Method -> Params -> PackOutcome)
  (clock : nat -> num) (m : Method) (k fuel : nat) (cur : UserParams) (op : Params)
  (e : Exn) :
  attempt_params cur = inr op -> packer m op = Failed e ->
  calc_loop packer clock m (S fuel) k cur
    = Some {| success := false; resp_panels := []; cuts := []; summary := [];
              error := Some (e.(exn_type) ++ ": " ++ e.(exn_msg));
              calculation_time := Some (clock k) |} /\
  attempts packer clock m (S fuel) k cur = [cur].
Proof.
  intros Ha Hp. simpl. unfold attempt. rewrite Ha, Hp. split; reflexivity.
Qed.

(** ** C10: what a retry leaves unchanged *)

(** C10. Between two consecutive attempts of a run the cut width, the
    minimum-initial-usage flag, the item specs, and the name, width, height
    and grain of every panel spec are unchanged, and only each panel spec's
    quantity changes (by one). *)
Theorem retry_frame (packer : Method -> Params -> PackOutcome) (clock : nat -> num)
  (m : Method) (fuel k : nat) (cur : UserParams) (l1 l2 : list UserParams)
  (a b : UserParams) :
  attempts packer clock m fuel k cur = (l1 ++ a :: b :: l2)%list ->
  b.(cut_width) = a.(cut_width) /\ b.(min_initial_usage) = a.(min_initial_usage) /\
  b.(items) = a.(items) /\
  map (fun p => (p.(p_name), p.(p_width), p.(p_height), p.(p_grain))) b.(panels)
  = map (fun p => (p.(p_name), p.(p_width), p.(p_height), p.(p_grain))) a.(panels) /\
  map p_quantity b.(panels) = map (fun q => q + 1) (map p_quantity a.(panels)).
Proof.
  intro H. destruct (attempts_consecutive _ _ _ _ _ _ _ _ _ _ H) as [k' Hk'].
  destruct (attempt_retry_inv _ _ _ _ _ _ Hk') as [-> _].
  unfold _increment_panel_quantities. simpl. rewrite !map_map.
  repeat split; reflexivity.
Qed.

(** ** C2: the request object *)

(** C2 (as amended).  The endpoint overwrites, in the caller's request
    object, the first panel spec's quantity with 1 and changes nothing else
    of it; the calculation runs on that object, so the first attempt uses
    quantity 1 for the first panel spec and the request's quantities for
    the others. *)
Theorem api_sets_first_quantity (packer : Method -> Params -> PackOutcome)
  (clock : nat -> num) (up : UserParams) (method : string) (fuel : nat)
  (p0 : PanelInput) (rest : list PanelInput) :
  up.(panels) = p0 :: rest ->
  let up' := fst (calculate_optimization packer clock up method fuel) in
  up'.(cut_width) = up.(cut_width) /\ up'.(min_initial_usage) = up.(min_initial_usage) /\
  up'.(items) = up.(items) /\
  map p_quantity up'.(panels) = 1 :: map p_quantity rest /\
  map (fun p => (p.(p_name), p.(p_width), p.(p_height), p.(p_grain))) up'.(panels)
  = map (fun p => (p.(p_name), p.(p_width), p.(p_height), p.(p_grain))) up.(panels) /\
  snd (calculate_optimization packer clock up method fuel)
  = match method_map method with
    | Some m => calc_loop packer clock m fuel 0 up'
    | None => Some (api_error {| exn_type := "ValueError";
                                 exn_msg := "Unknown method: " ++ method |})
    end /\
  (forall m, method_map method = Some m -> (0 < fuel)%nat ->
     hd_error (attempts packer clock m fuel 0 up') = Some up').
Proof.
  intros Hp up'. subst up'. unfold calculate_optimization. rewrite Hp. simpl.
  split; [reflexivity|split; [reflexivity|split; [reflexivity|split; [reflexivity|]]]].
  split; [reflexivity|split].
  - unfold calculate. destruct (method_map method); reflexivity.
  - intros m' _ Hf. destruct fuel; [lia|]. reflexivity.
Qed.

(** C2 (as stated fails).  For a request asking for 3 sheets of its only
    panel spec, the caller's request object afterwards asks for 1, and the
    first attempt offers the packer a single panel unit. *)
Lemma request_mutated_counterexample :
  fst (calculate_optimization (packer_failing index_error) clock_ticks request_q3 "greedy" 1)
    <> request_q3 /\
  map p_quantity (fst (calculate_optimization (packer_failing index_error) clock_ticks
                         request_q3 "greedy" 1)).(panels) = [1] /\
  map p_quantity request_q3.(panels) = [3] /\
  (exists op, attempt_params (fst (calculate_optimization (packer_failing index_error)
                                     clock_ticks request_q3 "greedy" 1)) = inr op /\
              List.length op.(op_panels) = 1%nat).
Proof.
  split; [vm_compute; discriminate|split; [reflexivity|split; [reflexivity|]]].
  eexists. split; [vm_compute; reflexivity|]. reflexivity.
Qed.

(** ** Instances on the sample requests *)

Lemma expansion_ids_deterministic_witness :
  map panel_id (_expand_panels request_q3.(panels))
  = map (fun j => "P" ++ "_" ++ nat_string j) (seq 1 3) /\
  _expand_panels request_q3.(panels) = _expand_panels request_q3.(panels).
Proof.
  destruct expansion_ids_deterministic as [H1 [_ [_ [_ [H5 _]]]]].
  split; [rewrite H1; reflexivity|apply H5; reflexivity].
Defined.

Lemma transform_result_summary_witness :
  exists resp, transform_result (raw_result [placement "P_1" "I_1"]) request_B = inr resp /\
    List.length resp.(resp_panels) = 1%nat.
Proof.
  destruct (transform_result (raw_result [placement "P_1" "I_1"]) request_B) as [e|resp] eqn:E.
  - vm_compute in E. discriminate.
  - exists resp. split; [reflexivity|].
    rewrite (proj2 (proj2 (transform_result_summary _ _ _ E))). reflexivity.
Defined.

Lemma display_restores_metadata_witness :
  (_transform_used_item_for_display (placement "P_1" "I_1")
     (_create_item_mapping [item_B] panel_V) panel_V).(ui_engraved_line) = EVertical.
Proof.
  destruct (display_restores_metadata [item_B] panel_V item_B 0 (placement "P_1" "I_1"))
    as [_ [_ [_ [_ H]]]].
  - constructor; [simpl; tauto|constructor].
  - simpl. auto.
  - vm_compute. lia.
  - reflexivity.
  - reflexivity.
  - reflexivity.
  - exact (proj1 (H eq_refl)).
Defined.

Lemma items_oriented_by_first_panel_witness :
  exists op, attempt_params request_mixed = inr op /\
    In {| item_id := "I_1"; item_width := 300; item_height := 500; can_rotate := false |}
       op.(op_items).
Proof.
  destruct (attempt_params request_mixed) as [e|op] eqn:E.
  - vm_compute in E. discriminate.
  - exists op. split; [reflexivity|].
    apply (items_oriented_by_first_panel request_mixed panel_H [panel_V] op eq_refl E).
    exists item_V, 0%nat. split; [simpl; auto|split; [vm_compute; lia|reflexivity]].
Defined.

Lemma unknown_item_defaults_witness :
  (_transform_used_item_for_display (placement "P_1" "X_1")
     (_create_item_mapping [item_B] panel_V) panel_V).(ui_name) = "" /\
  exists resp, transform_result (raw_result [placement "P_1" "X_1"]) request_B = inr resp /\
    resp.(success) = true.
Proof.
  destruct unknown_item_defaults as [Ha Hb]. split.
  - rewrite Ha; [reflexivity|vm_compute; reflexivity].
  - apply Hb.
    + discriminate.
    + intros u [<-|[]]. vm_compute. discriminate.
    + intros a [<-|[]]. vm_compute. discriminate.
Defined.

Lemma retry_monotone_terminates_witness :
  attempt (packer_needing 3 (raw_result [])) clock_ticks GREEDY 0 request_B
    = Retry (_increment_panel_quantities request_B 1) /\
  calc_loop (packer_needing 3 (raw_result [])) clock_ticks GREEDY 50 0 request_B <> None.
Proof.
  destruct (retry_monotone_terminates (packer_needing 3 (raw_result [])) clock_ticks GREEDY)
    as [H1 [_ [_ H4]]].
  split.
  - destruct (attempt_params request_B) as [e|op] eqn:E.
    + vm_compute in E. discriminate.
    + apply (H1 0%nat request_B op "").
      * exact E.
      * vm_compute in E. injection E as <-. reflexivity.
      * vm_compute. reflexivity.
  - apply H4. vm_compute. lia.
Defined.

Lemma ceiling_failure_witness :
  calc_loop (packer_needing 1000 (raw_result [])) clock_ticks GREEDY 1 0 request_50
    = Some (failure (ceiling_message 50) (Some 0)) /\
  exists pre post, ceiling_message 50 = pre ++ "50" ++ post.
Proof.
  destruct (attempt_params request_50) as [e|op] eqn:E.
  - vm_compute in E. discriminate.
  - destruct (ceiling_failure (packer_needing 1000 (raw_result [])) clock_ticks GREEDY
                0 0 request_50 op "" E) as [H1 [_ H3]].
    + vm_compute in E. injection E as <-. reflexivity.
    + vm_compute. discriminate.
    + split; [exact H1|exact (H3 eq_refl)].
Defined.

Lemma other_failure_terminal_witness :
  calc_loop (packer_failing index_error) clock_ticks GREEDY 1 0 request_B
    = Some (failure "IndexError: list index out of range" (Some 0)).
Proof.
  destruct (attempt_params request_B) as [e|op] eqn:E.
  - vm_compute in E. discriminate.
  - exact (proj1 (other_failure_terminal (packer_failing index_error) clock_ticks GREEDY
                    0 0 request_B op index_error E eq_refl)).
Defined.

Lemma retry_frame_witness :
  (_increment_panel_quantities request_B 1).(items) = request_B.(items) /\
  map p_quantity (_increment_panel_quantities request_B 1).(panels) = [2].
Proof.
  assert (H : attempts (packer_needing 3 (raw_result [])) clock_ticks GREEDY 5 0 request_B
              = ([] ++ request_B :: _increment_panel_quantities request_B 1 ::
                 [_increment_panel_quantities (_increment_panel_quantities request_B 1) 1])%list)
    by (vm_compute; reflexivity).
  destruct (retry_frame _ _ _ _ _ _ _ _ _ _ H) as [_ [_ [H3 [_ H5]]]].
  split; [exact H3|rewrite H5; reflexivity].
Defined.

Lemma api_sets_first_quantity_witness :
  map p_quantity (fst (calculate_optimization (packer_failing index_error) clock_ticks
                         request_q3 "greedy" 1)).(panels) = [1].
Proof.
  destruct (api_sets_first_quantity (packer_failing index_error) clock_ticks request_q3
              "greedy" 1 (hd panel_V request_q3.(panels)) [] eq_refl)
    as [_ [_ [_ [H _]]]].
  exact H.
Defined.

(** * Further properties of the assembly and the retry loop *)


(** ** The final sort *)

Lemma insert_by_id_perm x l : Permutation (insert_by_id x l) (x :: l).
Proof.
  induction l as [|y l IH]; simpl; [reflexivity|].
  destruct (String.ltb _ _); [reflexivity|].
  rewrite IH. apply perm_swap.
Qed.

Lemma sort_by_id_perm l : Permutation (sort_by_id l) l.
Proof.
  unfold sort_by_id.
  assert (G : forall acc, Permutation (fold_left (fun acc x => insert_by_id x acc) l acc)
                                      (acc ++ l)%list).
  { induction l as [|x l IH]; intro acc; simpl; [rewrite app_nil_r; reflexivity|].
    rewrite IH, insert_by_id_perm. simpl. apply Permutation_middle. }
  apply G.
Qed.

Lemma not_ltb_leb s1 s2 : String.ltb s1 s2 = false -> String.leb s2 s1 = true.
Proof.
  unfold String.ltb, String.leb. rewrite (String.compare_antisym s2 s1).
  destruct (String.compare s1 s2); simpl; congruence.
Qed.

Lemma ltb_leb s1 s2 : String.ltb s1 s2 = true -> String.leb s1 s2 = true.
Proof. unfold String.ltb, String.leb. destruct (String.compare s1 s2); congruence. Qed.

Lemma insert_by_id_sorted x l : Sorted id_le l -> Sorted id_le (insert_by_id x l).
Proof.
  induction l as [|y l IH]; simpl; intro S; [repeat constructor|].
  destruct (String.ltb (po_panel_id x) (po_panel_id y)) eqn:L.
  - constructor; [exact S|constructor; apply ltb_leb; exact L].
  - apply Sorted_inv in S. destruct S as [S H].
    constructor; [apply IH; exact S|].
    destruct l as [|z l]; simpl.
    + constructor. apply not_ltb_leb. exact L.
    + destruct (String.ltb (po_panel_id x) (po_panel_id z)); constructor.
      * apply not_ltb_leb. exact L.
      * inversion H. assumption.
Qed.

Lemma sort_by_id_sorted l : Sorted id_le (sort_by_id l).
Proof.
  unfold sort_by_id.
  assert (G : forall acc, Sorted id_le acc ->
                Sorted id_le (fold_left (fun acc x => insert_by_id x acc) l acc)).
  { induction l as [|x l IH]; intros acc S; simpl; [exact S|].
    apply IH, insert_by_id_sorted, S. }
  apply G. constructor.
Qed.

Lemma transform_result_panels rj up resp :
  transform_result rj up = inr resp ->
  exists p0 pd1 pd2,
    first_panel up.(panels) = inr p0 /\
    mfold (process_used (_create_panel_mapping up.(panels)) (_create_item_mapping up.(items) p0) p0)
          (opt_list rj.(r_used)) [] = inr pd1 /\
    mfold (process_unused (_create_panel_mapping up.(panels))) (opt_list rj.(r_unused)) pd1
      = inr pd2 /\
    resp.(resp_panels) = sort_by_id (map snd pd2).
Proof.
  unfold transform_result, bind. destruct (first_panel (panels up)) as [e|p0]; [discriminate|].
  destruct (mfold (process_used _ _ p0) (opt_list (r_used rj)) []) as [e|pd1] eqn:E1;
    [discriminate|].
  destruct (mfold (process_unused _) (opt_list (r_unused rj)) pd1) as [e|pd2] eqn:E2;
    [discriminate|].
  intro H. injection H as <-. exists p0, pd1, pd2. repeat split; assumption.
Qed.

(** ** Grouping of the raw records by panel *)

Lemma dget_dmodify {V} (d : dict V) k k' f :
  dget (dmodify d k f) k' = if String.eqb k' k then option_map f (dget d k) else dget d k'.
Proof.
  induction d as [|[k0 v0] d IH]; simpl.
  - destruct (String.eqb k' k); reflexivity.
  - destruct (String.eqb_spec k k0) as [->|N]; simpl.
    + destruct (String.eqb k' k0); reflexivity.
    + rewrite IH. destruct (String.eqb_spec k' k) as [E|N'].
      * subst k'. apply String.eqb_neq in N. rewrite N. reflexivity.
      * reflexivity.
Qed.

Lemma ensure_panel_dget pm pd pid pd' :
  ensure_panel pm pd pid = inr pd' ->
  (dget pd pid = None -> dget pm pid <> None) /\
  forall k, dget pd' k = if String.eqb k pid
                         then match dget pd pid with
                              | Some v => Some v
                              | None => panel_of pm pid [] []
                              end
                         else dget pd k.
Proof.
  unfold ensure_panel. destruct (dget pd pid) as [v|] eqn:G.
  - intro H. injection H as <-. split; [discriminate|].
    intro k. destruct (String.eqb_spec k pid) as [->|]; [exact G|reflexivity].
  - unfold _build_panel_structure, panel_of. destruct (dget pm pid) as [d|]; simpl;
      [|discriminate].
    intro H. injection H as <-. split; [discriminate|].
    intro k. rewrite dget_dset. reflexivity.
Qed.

Lemma panel_of_push_used pm k us ua x :
  option_map (push_used x) (panel_of pm k us ua) = panel_of pm k (us ++ [x])%list ua.
Proof. unfold panel_of. destruct (dget pm k); reflexivity. Qed.

Lemma panel_of_push_unused pm k us ua x :
  option_map (push_unused x) (panel_of pm k us ua) = panel_of pm k us (ua ++ [x])%list.
Proof. unfold panel_of. destruct (dget pm k); reflexivity. Qed.

Lemma panel_of_some pm k us ua us' ua' :
  dget pm k <> None -> exists p, panel_of pm k us ua = Some p /\
                                 exists p', panel_of pm k us' ua' = Some p'.
Proof.
  unfold panel_of. destruct (dget pm k); [|contradiction]. intros _. eauto.
Qed.

Lemma existsb_snoc k (xs : list string) y :
  existsb (String.eqb k) (xs ++ [y])%list = existsb (String.eqb k) xs || String.eqb k y.
Proof. rewrite existsb_app. simpl. rewrite orb_false_r. reflexivity. Qed.

Lemma filter_none {A} (f : A -> string) k l :
  existsb (String.eqb k) (map f l) = false -> filter (fun x => String.eqb k (f x)) l = [].
Proof.
  induction l as [|x l IH]; simpl; [reflexivity|].
  destruct (String.eqb k (f x)); simpl; [discriminate|exact IH].
Qed.

Lemma process_used_inv pm im p0 lu pd u pd2 :
  let disp := fun u => _transform_used_item_for_display u im p0 in
  panels_dict_inv pm disp lu [] pd ->
  process_used pm im p0 pd u = inr pd2 ->
  panels_dict_inv pm disp (lu ++ [u])%list [] pd2.
Proof.
  intros disp I. unfold process_used, bind.
  destruct (ensure_panel pm pd (uj_panel u)) as [e|pd1] eqn:E; [discriminate|].
  intro H. injection H as <-. destruct (ensure_panel_dget _ _ _ _ E) as [Hn Hk].
  intro k. rewrite dget_dmodify. rewrite !app_nil_r, map_app, existsb_app, filter_app.
  cbn [map existsb filter]. rewrite orb_false_r. destruct (String.eqb_spec k (uj_panel u)) as [->|N].
  - rewrite Hk, String.eqb_refl, orb_true_r, map_app. cbn [map].
    rewrite <- panel_of_push_used. f_equal. specialize (I (uj_panel u)).
    rewrite app_nil_r in I. cbn [map filter] in I.
    destruct (dget pd (uj_panel u)) as [v|] eqn:G.
    + destruct (existsb _ _); [|discriminate]. rewrite <- I. reflexivity.
    + specialize (Hn eq_refl).
      destruct (existsb (String.eqb (uj_panel u)) (map uj_panel lu)) eqn:X.
      * destruct (panel_of_some pm (uj_panel u)
                    (map disp (filter (fun u0 => String.eqb (uj_panel u) (uj_panel u0)) lu)) []
                    [] [] Hn) as [p [Hp _]].
        congruence.
      * rewrite (filter_none uj_panel _ _ X). reflexivity.
  - rewrite Hk. apply String.eqb_neq in N. rewrite N, orb_false_r, app_nil_r.
    rewrite (I k). simpl. rewrite app_nil_r. reflexivity.
Qed.

Lemma process_unused_inv pm disp lu la pd a pd2 :
  panels_dict_inv pm disp lu la pd ->
  process_unused pm pd a = inr pd2 ->
  panels_dict_inv pm disp lu (la ++ [a])%list pd2.
Proof.
  intro I. unfold process_unused, bind.
  destruct (ensure_panel pm pd (un_panel a)) as [e|pd1] eqn:E; [discriminate|].
  intro H. injection H as <-. destruct (ensure_panel_dget _ _ _ _ E) as [Hn Hk].
  intro k. rewrite dget_dmodify, (map_app un_panel la [a]), app_assoc, existsb_app,
    (filter_app _ la [a]).
  cbn [map existsb filter]. rewrite orb_false_r.
  destruct (String.eqb_spec k (un_panel a)) as [->|N].
  - rewrite Hk, String.eqb_refl, orb_true_r, map_app. cbn [map].
    rewrite <- panel_of_push_unused. f_equal. specialize (I (un_panel a)).
    destruct (dget pd (un_panel a)) as [v|] eqn:G.
    + destruct (existsb _ _); [|discriminate]. rewrite <- I. reflexivity.
    + specialize (Hn eq_refl).
      destruct (existsb (String.eqb (un_panel a)) (map uj_panel lu ++ map un_panel la)%list)
        eqn:X.
      * destruct (panel_of_some pm (un_panel a) [] [] [] [] Hn) as [_ [_ [p' Hp']]].
        unfold panel_of in I, Hp'. destruct (dget pm (un_panel a)); congruence.
      * rewrite existsb_app in X. apply orb_false_iff in X. destruct X as [X1 X2].
        rewrite (filter_none uj_panel _ _ X1), (filter_none un_panel _ _ X2). reflexivity.
  - rewrite Hk. apply String.eqb_neq in N. rewrite N, orb_false_r, app_nil_r.
    exact (I k).
Qed.

Lemma mfold_used_inv pm im p0 l lu pd pd' :
  let disp := fun u => _transform_used_item_for_display u im p0 in
  panels_dict_inv pm disp lu [] pd ->
  mfold (process_used pm im p0) l pd = inr pd' ->
  panels_dict_inv pm disp (lu ++ l)%list [] pd'.
Proof.
  intro disp. revert lu pd. induction l as [|u l IH]; intros lu pd I; simpl.
  - intro H. injection H as <-. rewrite app_nil_r. exact I.
  - unfold bind at 1. destruct (process_used pm im p0 pd u) as [e|pd1] eqn:E; [discriminate|].
    intro H. replace (lu ++ u :: l)%list with ((lu ++ [u]) ++ l)%list
      by (rewrite <- app_assoc; reflexivity).
    exact (IH _ _ (process_used_inv _ _ _ _ _ _ _ I E) H).
Qed.

Lemma mfold_unused_inv pm disp lu l la pd pd' :
  panels_dict_inv pm disp lu la pd ->
  mfold (process_unused pm) l pd = inr pd' ->
  panels_dict_inv pm disp lu (la ++ l)%list pd'.
Proof.
  revert la pd. induction l as [|a l IH]; intros la pd I; simpl.
  - intro H. injection H as <-. rewrite app_nil_r. exact I.
  - unfold bind at 1. destruct (process_unused pm pd a) as [e|pd1] eqn:E; [discriminate|].
    intro H. replace (la ++ a :: l)%list with ((la ++ [a]) ++ l)%list
      by (rewrite <- app_assoc; reflexivity).
    exact (IH _ _ (process_unused_inv _ _ _ _ _ _ _ I E) H).
Qed.

Lemma dget_in_nodup {V} (d : dict V) k v :
  NoDup (map fst d) -> In (k, v) d -> dget d k = Some v.
Proof.
  induction d as [|[k0 v0] d IH]; simpl; [contradiction|].
  intros ND [H|H]; inversion ND as [|? ? Hn ND']; subst.
  - injection H as -> ->. rewrite String.eqb_refl. reflexivity.
  - destruct (String.eqb_spec k k0) as [->|]; [|auto].
    exfalso. apply Hn. apply (in_map fst) in H. exact H.
Qed.

Lemma panel_of_id pm k us ua p : panel_of pm k us ua = Some p -> p.(po_panel_id) = k.
Proof. unfold panel_of. destruct (dget pm k); [|discriminate]. intro H. injection H as <-. reflexivity. Qed.

Lemma panels_dict_inv_nil pm disp : panels_dict_inv pm disp [] [] [].
Proof. intro k. reflexivity. Qed.

(** Everything known of the final panels dict of a successful assembly. *)
Lemma transform_result_dict rj up resp :
  transform_result rj up = inr resp ->
  exists p0 pd2,
    first_panel up.(panels) = inr p0 /\
    panels_dict_inv (_create_panel_mapping up.(panels))
      (fun u => _transform_used_item_for_display u (_create_item_mapping up.(items) p0) p0)
      (opt_list rj.(r_used)) (opt_list rj.(r_unused)) pd2 /\
    NoDup (map fst pd2) /\
    (forall x, In x (map fst pd2) <->
               In x (map uj_panel (opt_list rj.(r_used)) ++ map un_panel (opt_list rj.(r_unused)))%list) /\
    resp.(resp_panels) = sort_by_id (map snd pd2).
Proof.
  intro H. destruct (transform_result_panels _ _ _ H) as [p0 [pd1 [pd2 [Hp [E1 [E2 Hr]]]]]].
  exists p0, pd2. split; [exact Hp|split; [|split; [|split; [|exact Hr]]]].
  - apply (mfold_unused_inv _ _ _ _ [] _ _ (mfold_used_inv _ _ _ _ [] _ _
             (panels_dict_inv_nil _ _) E1) E2).
  - destruct (mfold_used_keys _ _ _ _ _ _ E1) as [_ N1].
    destruct (mfold_unused_keys _ _ _ _ E2) as [_ N2]. apply N2, N1. constructor.
  - destruct (mfold_used_keys _ _ _ _ _ _ E1) as [K1 _].
    destruct (mfold_unused_keys _ _ _ _ E2) as [K2 _].
    intro x. rewrite K2, K1, in_app_iff. simpl. intuition.
Qed.

Lemma dict_values_ids pm disp lu la pd :
  panels_dict_inv pm disp lu la pd -> NoDup (map fst pd) ->
  map po_panel_id (map snd pd) = map fst pd.
Proof.
  intros I ND. rewrite map_map. apply map_ext_in. intros [k v] Hin. simpl.
  pose proof (I k) as Ik. rewrite (dget_in_nodup _ _ _ ND Hin) in Ik.
  destruct (existsb _ _); [|discriminate]. symmetry in Ik. exact (panel_of_id _ _ _ _ _ Ik).
Qed.

Lemma leb_neq_ltb s1 s2 : String.leb s1 s2 = true -> s1 <> s2 -> String.ltb s1 s2 = true.
Proof.
  unfold String.leb, String.ltb. destruct (String.compare s1 s2) eqn:C; try congruence.
  intros _ N. apply String.compare_eq_iff in C. contradiction.
Qed.

Lemma sorted_le_lt l : Sorted id_le l -> NoDup (map po_panel_id l) -> Sorted id_lt l.
Proof.
  induction l as [|x l IH]; intros S ND; [constructor|].
  apply Sorted_inv in S. destruct S as [S H]. inversion ND as [|? ? Hn ND']; subst.
  constructor; [apply IH; assumption|].
  destruct l as [|y l]; constructor. inversion H; subst.
  apply leb_neq_ltb; [assumption|]. intro E. apply Hn. simpl. left. symmetry. exact E.
Qed.

Lemma result_panel_ids (rj : ResultJson) (up : UserParams)
  (resp : CalculationResponse) :
  transform_result rj up = inr resp ->
  NoDup (map po_panel_id resp.(resp_panels)) /\
  forall k, In k (map po_panel_id resp.(resp_panels)) <->
            In k (map uj_panel (opt_list rj.(r_used)) ++ map un_panel (opt_list rj.(r_unused)))%list.
Proof.
  intro H. destruct (transform_result_dict _ _ _ H) as [p0 [pd2 [_ [I [ND [K Hr]]]]]].
  assert (P : Permutation (map po_panel_id resp.(resp_panels)) (map fst pd2)).
  { rewrite Hr, <- (dict_values_ids _ _ _ _ _ I ND).
    apply Permutation_map, sort_by_id_perm. }
  split.
  - apply (Permutation_NoDup (Permutation_sym P) ND).
  - intro k. rewrite <- K. split; apply Permutation_in; [exact P|apply Permutation_sym, P].
Qed.

(** X2.  The panels of a successful response are exactly the panel ids met
    in the raw placements and unused regions, each listed once. *)
Theorem transform_result_panel_ids (rj : ResultJson) (up : UserParams)
  (resp : CalculationResponse) :
  transform_result rj up = inr resp ->
  NoDup (map po_panel_id resp.(resp_panels)) /\
  forall k, In k (map po_panel_id resp.(resp_panels)) <->
            In k (map uj_panel (opt_list rj.(r_used)) ++ map un_panel (opt_list rj.(r_unused)))%list.
Proof. exact (result_panel_ids rj up resp). Qed.

(** X1.  The panels of a successful response are listed in strictly
    ascending order of panel id. *)
Theorem transform_result_sorted (rj : ResultJson) (up : UserParams)
  (resp : CalculationResponse) :
  transform_result rj up = inr resp -> Sorted id_lt resp.(resp_panels).
Proof.
  intro H. apply sorted_le_lt; [|exact (proj1 (result_panel_ids _ _ _ H))].
  destruct (transform_result_dict _ _ _ H) as [p0 [pd2 [_ [_ [_ [_ ->]]]]]].
  apply sort_by_id_sorted.
Qed.

Lemma result_groups (rj : ResultJson) (up : UserParams)
  (resp : CalculationResponse) :
  transform_result rj up = inr resp ->
  exists p0, first_panel up.(panels) = inr p0 /\
  forall p, In p resp.(resp_panels) ->
    panel_of (_create_panel_mapping up.(panels)) p.(po_panel_id)
      (map (fun u => _transform_used_item_for_display u (_create_item_mapping up.(items) p0) p0)
           (filter (fun u => String.eqb p.(po_panel_id) u.(uj_panel)) (opt_list rj.(r_used))))
      (map unused_area_of
           (filter (fun a => String.eqb p.(po_panel_id) a.(un_panel)) (opt_list rj.(r_unused))))
    = Some p.
Proof.
  intro H. destruct (transform_result_dict _ _ _ H) as [p0 [pd2 [Hp [I [ND [_ Hr]]]]]].
  exists p0. split; [exact Hp|]. intros p Hin.
  rewrite Hr in Hin. apply (Permutation_in _ (sort_by_id_perm _)), in_map_iff in Hin.
  destruct Hin as [[k v] [Hv Hin]]. simpl in Hv. subst v.
  pose proof (I k) as Ik. rewrite (dget_in_nodup _ _ _ ND Hin) in Ik.
  destruct (existsb _ _); [|discriminate]. symmetry in Ik.
  rewrite (panel_of_id _ _ _ _ _ Ik). exact Ik.
Qed.

(** X3.  Every panel of a successful response has the name, width and
    height of its entry in the panel index, holds the displayed placements
    whose panel id is its own, in the raw result's order, and holds the
    unused regions with its id, in order, with their sizes and positions
    unchanged. *)
Theorem transform_result_groups (rj : ResultJson) (up : UserParams)
  (resp : CalculationResponse) :
  transform_result rj up = inr resp ->
  exists p0, first_panel up.(panels) = inr p0 /\
  forall p, In p resp.(resp_panels) ->
    panel_of (_create_panel_mapping up.(panels)) p.(po_panel_id)
      (map (fun u => _transform_used_item_for_display u (_create_item_mapping up.(items) p0) p0)
           (filter (fun u => String.eqb p.(po_panel_id) u.(uj_panel)) (opt_list rj.(r_used))))
      (map unused_area_of
           (filter (fun a => String.eqb p.(po_panel_id) a.(un_panel)) (opt_list rj.(r_unused))))
    = Some p.
Proof. exact (result_groups rj up resp). Qed.

Lemma list_sum_map_add {A} (f g : A -> nat) l :
  list_sum (map (fun x => f x + g x)%nat l) = (list_sum (map f l) + list_sum (map g l))%nat.
Proof. induction l as [|x l IH]; simpl; [reflexivity|]. rewrite IH. lia. Qed.

Lemma sum_indicator_absent (K : list string) y :
  ~ In y K -> list_sum (map (fun k => if String.eqb k y then 1 else 0)%nat K) = 0%nat.
Proof.
  induction K as [|k K IH]; simpl; intro H; [reflexivity|].
  destruct (String.eqb_spec k y); [exfalso; auto|]. rewrite IH; auto.
Qed.

Lemma sum_indicator (K : list string) y :
  NoDup K -> In y K -> list_sum (map (fun k => if String.eqb k y then 1 else 0)%nat K) = 1%nat.
Proof.
  induction K as [|k K IH]; simpl; intros ND H; [contradiction|].
  inversion ND as [|? ? Hn ND']; subst.
  destruct (String.eqb_spec k y) as [->|N].
  - rewrite sum_indicator_absent; auto.
  - destruct H as [H|H]; [contradiction|]. rewrite IH; auto.
Qed.

Lemma count_partition {A} (f : A -> string) (K : list string) (L : list A) :
  NoDup K -> (forall x, In x L -> In (f x) K) ->
  list_sum (map (fun k => List.length (filter (fun x => String.eqb k (f x)) L)) K)
  = List.length L.
Proof.
  intro ND. induction L as [|x L IH]; intro H; simpl.
  - clear ND H. induction K as [|k K IHK]; simpl; [reflexivity|exact IHK].
  - rewrite (map_ext _ (fun k => ((if String.eqb k (f x) then 1 else 0) +
                                  List.length (filter (fun x => String.eqb k (f x)) L))%nat)).
    + rewrite list_sum_map_add, sum_indicator, IH; auto.
      * intros y Hy. apply H. simpl. auto.
      * apply H. simpl. auto.
    + intro k. simpl. destruct (String.eqb k (f x)); reflexivity.
Qed.

(** X4.  A successful response loses and duplicates nothing: its panels
    hold, in total, as many placed items as the raw result has placements
    and as many unused areas as it has unused regions. *)
Theorem transform_result_counts (rj : ResultJson) (up : UserParams)
  (resp : CalculationResponse) :
  transform_result rj up = inr resp ->
  list_sum (map (fun p => List.length p.(po_used_items)) resp.(resp_panels))
    = List.length (opt_list rj.(r_used)) /\
  list_sum (map (fun p => List.length p.(po_unused_areas)) resp.(resp_panels))
    = List.length (opt_list rj.(r_unused)).
Proof.
  intro H. destruct (result_groups _ _ _ H) as [p0 [_ G]].
  destruct (result_panel_ids _ _ _ H) as [ND K].
  split.
  - rewrite (map_ext_in _ (fun p => List.length
               (filter (fun u => String.eqb p.(po_panel_id) u.(uj_panel)) (opt_list rj.(r_used))))).
    + rewrite <- (map_map po_panel_id (fun k => List.length
               (filter (fun u => String.eqb k u.(uj_panel)) (opt_list rj.(r_used))))).
      apply count_partition; [exact ND|].
      intros u Hu. apply K. apply in_app_iff. left. apply in_map. exact Hu.
    + intros p Hp. specialize (G p Hp). unfold panel_of in G.
      destruct (dget _ _); [|discriminate]. injection G as <-. simpl. apply length_map.
  - rewrite (map_ext_in _ (fun p => List.length
               (filter (fun a => String.eqb p.(po_panel_id) a.(un_panel)) (opt_list rj.(r_unused))))).
    + rewrite <- (map_map po_panel_id (fun k => List.length
               (filter (fun a => String.eqb k a.(un_panel)) (opt_list rj.(r_unused))))).
      apply count_partition; [exact ND|].
      intros a Ha. apply K. apply in_app_iff. right. apply in_map. exact Ha.
    + intros p Hp. specialize (G p Hp). unfold panel_of in G.
      destruct (dget _ _); [|discriminate]. injection G as <-. simpl. apply length_map.
Qed.

(** ** When the assembly fails *)

Lemma ensure_panel_fail pm pd pid e :
  ensure_panel pm pd pid = inl e -> e = key_error pid /\ dget pm pid = None.
Proof.
  unfold ensure_panel. destruct (dget pd pid); [discriminate|].
  unfold _build_panel_structure. destruct (dget pm pid); simpl; [discriminate|].
  intro H. injection H as <-. auto.
Qed.

Lemma mfold_used_fail pm im p0 l pd e :
  mfold (process_used pm im p0) l pd = inl e ->
  exists u, In u l /\ e = key_error u.(uj_panel) /\ dget pm u.(uj_panel) = None.
Proof.
  revert pd. induction l as [|u l IH]; intro pd; simpl; [discriminate|].
  unfold process_used, bind at 1 2.
  destruct (ensure_panel pm pd (uj_panel u)) as [e'|pd1] eqn:E; simpl.
  - intro H. injection H as <-. apply ensure_panel_fail in E. exists u. simpl. tauto.
  - intro H. destruct (IH _ H) as [u' [Hu' R]]. exists u'. simpl. tauto.
Qed.

Lemma mfold_unused_fail pm l pd e :
  mfold (process_unused pm) l pd = inl e ->
  exists a, In a l /\ e = key_error a.(un_panel) /\ dget pm a.(un_panel) = None.
Proof.
  revert pd. induction l as [|a l IH]; intro pd; simpl; [discriminate|].
  unfold process_unused, bind at 1 2.
  destruct (ensure_panel pm pd (un_panel a)) as [e'|pd1] eqn:E; simpl.
  - intro H. injection H as <-. apply ensure_panel_fail in E. exists a. simpl. tauto.
  - intro H. destruct (IH _ H) as [a' [Ha' R]]. exists a'. simpl. tauto.
Qed.

(** X5.  [transform_result] raises exactly in two situations: an
    [IndexError] when the request has no panel spec, and otherwise a
    [KeyError] naming a panel id of the raw result that is missing from
    the panel index, which happens iff such an id exists. *)
Theorem transform_result_failure (rj : ResultJson) (up : UserParams) :
  (up.(panels) = [] -> transform_result rj up = inl index_error) /\
  (up.(panels) <> [] ->
     (forall e, transform_result rj up = inl e ->
        exists k, e = key_error k /\
          In k (map uj_panel (opt_list rj.(r_used)) ++ map un_panel (opt_list rj.(r_unused)))%list /\
          dget (_create_panel_mapping up.(panels)) k = None) /\
     ((exists e, transform_result rj up = inl e) <->
      exists k, In k (map uj_panel (opt_list rj.(r_used))
                      ++ map un_panel (opt_list rj.(r_unused)))%list /\
                dget (_create_panel_mapping up.(panels)) k = None)).
Proof.
  split; [intro Hp; unfold transform_result; rewrite Hp; reflexivity|].
  intro Hne.
  assert (F : forall e, transform_result rj up = inl e ->
                exists k, e = key_error k /\
                  In k (map uj_panel (opt_list rj.(r_used))
                        ++ map un_panel (opt_list rj.(r_unused)))%list /\
                  dget (_create_panel_mapping up.(panels)) k = None).
  { intros e. unfold transform_result, bind.
    destruct (first_panel (panels up)) as [e0|p0] eqn:Hf;
      [destruct (panels up); [contradiction|discriminate]|].
    destruct (mfold (process_used _ _ p0) (opt_list (r_used rj)) []) as [e1|pd1] eqn:E1.
    - intro H. injection H as <-. destruct (mfold_used_fail _ _ _ _ _ _ E1) as [u [Hu [-> Hn]]].
      exists (uj_panel u). split; [reflexivity|split; [|exact Hn]].
      apply in_app_iff. left. apply in_map. exact Hu.
    - destruct (mfold (process_unused _) (opt_list (r_unused rj)) pd1) as [e2|pd2] eqn:E2;
        [|discriminate].
      intro H. injection H as <-. destruct (mfold_unused_fail _ _ _ _ E2) as [a [Ha [-> Hn]]].
      exists (un_panel a). split; [reflexivity|split; [|exact Hn]].
      apply in_app_iff. right. apply in_map. exact Ha. }
  split; [exact F|split].
  - intros [e H]. destruct (F e H) as [k [_ R]]. exists k. exact R.
  - intros [k [Hk Hn]]. destruct (transform_result rj up) as [e|resp] eqn:E; [eauto|].
    exfalso. destruct (result_panel_ids _ _ _ E) as [_ K].
    apply K, in_map_iff in Hk. destruct Hk as [p [<- Hp]].
    destruct (result_groups _ _ _ E) as [p0 [_ G]].
    specialize (G p Hp). unfold panel_of in G. rewrite Hn in G. discriminate.
Qed.

(** ** Quantity expansion and the metadata indexes *)

Lemma uint_string_inj d1 d2 : uint_string d1 = uint_string d2 -> d1 = d2.
Proof.
  revert d2. induction d1; intros [] H; simpl in H; try discriminate; try reflexivity;
    injection H as H; f_equal; auto.
Qed.

Lemma unit_id_inj a b i j : unit_id a i = unit_id b j -> a = b /\ i = j.
Proof.
  unfold unit_id, nat_string. simpl. intro H.
  destruct (app_us_inj _ _ _ _ (uint_string_no_us _) (uint_string_no_us _) H) as [-> E].
  split; [reflexivity|]. apply uint_string_inj, Unsigned.to_uint_inj in E. lia.
Qed.

Lemma existsb_eqb_in (l : list nat) (f : nat -> string) k :
  existsb (fun i => String.eqb k (f i)) l = true <-> In k (map f l).
Proof.
  rewrite existsb_exists, in_map_iff. split.
  - intros [i [Hi E]]. apply String.eqb_eq in E. eauto.
  - intros [i [E Hi]]. exists i. split; [exact Hi|]. apply String.eqb_eq. auto.
Qed.

Lemma dget_fold_set {V} (l : list nat) (f : nat -> string) (v : V) m k :
  dget (fold_left (fun m i => dset m (f i) v) l m) k
  = if existsb (fun i => String.eqb k (f i)) l then Some v else dget m k.
Proof.
  revert m. induction l as [|i l IH]; intro m; simpl; [reflexivity|].
  rewrite IH, dget_dset. destruct (String.eqb k (f i)); simpl;
    destruct (existsb _ l); reflexivity.
Qed.

Lemma expand_panels_ids ps : map panel_id (_expand_panels ps) = expanded_panel_ids ps.
Proof.
  induction ps as [|p ps IH]; [reflexivity|].
  unfold _expand_panels, expanded_panel_ids in *. simpl.
  rewrite map_app, map_map, IH. reflexivity.
Qed.

Lemma expand_items_ids its panel :
  map item_id (_expand_items its panel) = expanded_item_ids its.
Proof.
  induction its as [|it its IH]; [reflexivity|].
  unfold _expand_items, expanded_item_ids in *. simpl.
  rewrite map_app, map_map, IH. reflexivity.
Qed.

Lemma unit_ids_nodup {A} (name : A -> string) (q : A -> Z) (l : list A) :
  NoDup (map name l) ->
  NoDup (flat_map (fun x => map (unit_id (name x)) (range (q x))) l).
Proof.
  induction l as [|x l IH]; intro ND; simpl; [constructor|].
  inversion ND as [|? ? Hn ND']; subst.
  apply NoDup_app; [|exact (IH ND')|].
  - apply NoDup_map_NoDup_ForallPairs; [|apply seq_NoDup].
    intros i j _ _ E. exact (proj2 (unit_id_inj _ _ _ _ E)).
  - intros a Ha Hb. apply in_map_iff in Ha. destruct Ha as [i [<- _]].
    apply in_flat_map in Hb. destruct Hb as [y [Hy Hb]].
    apply in_map_iff in Hb. destruct Hb as [j [E _]].
    apply unit_id_name_inj in E. apply Hn. rewrite <- E. apply in_map. exact Hy.
Qed.

Lemma panel_mapping_dom ps m k :
  dget (fold_left (fun m panel =>
    fold_left (fun m i =>
      dset m (unit_id panel.(p_name) i)
        {| pd_name := panel.(p_name); pd_width := panel.(p_width);
           pd_height := panel.(p_height); pd_grain := panel.(p_grain) |})
      (range panel.(p_quantity)) m) ps m) k <> None
  <-> In k (expanded_panel_ids ps) \/ dget m k <> None.
Proof.
  revert m. induction ps as [|p ps IH]; intro m; simpl; [tauto|].
  rewrite IH, dget_fold_set, in_app_iff.
  destruct (existsb _ _) eqn:E.
  - apply existsb_eqb_in in E. split; intros _; [left; left; exact E|right; discriminate].
  - assert (~ In k (map (unit_id (p_name p)) (range (p_quantity p)))).
    { rewrite <- existsb_eqb_in, E. discriminate. }
    tauto.
Qed.

Lemma item_mapping_dom panel its m k :
  dget (fold_left (add_item_units panel) its m) k <> None
  <-> In k (expanded_item_ids its) \/ dget m k <> None.
Proof.
  revert m. induction its as [|it its IH]; intro m; simpl; [tauto|].
  rewrite IH. unfold add_item_units. rewrite dget_fold_units, in_app_iff.
  destruct (existsb _ _) eqn:E.
  - apply existsb_eqb_in in E. split; intros _; [left; left; exact E|right; discriminate].
  - assert (~ In k (map (unit_id (i_name it)) (range (i_quantity it)))).
    { rewrite <- existsb_eqb_in, E. discriminate. }
    tauto.
Qed.

Lemma panel_mapping_other ps m name i :
  ~ In name (map p_name ps) ->
  dget (fold_left (fun m panel =>
    fold_left (fun m i =>
      dset m (unit_id panel.(p_name) i)
        {| pd_name := panel.(p_name); pd_width := panel.(p_width);
           pd_height := panel.(p_height); pd_grain := panel.(p_grain) |})
      (range panel.(p_quantity)) m) ps m) (unit_id name i) = dget m (unit_id name i).
Proof.
  revert m. induction ps as [|p ps IH]; intros m Hn; simpl in *; [reflexivity|].
  rewrite IH by tauto. rewrite dget_fold_set.
  destruct (existsb _ _) eqn:E; [|reflexivity].
  apply existsb_eqb_in, in_map_iff in E. destruct E as [j [E _]].
  apply unit_id_name_inj in E. tauto.
Qed.

Lemma panel_mapping_lookup ps m p i :
  NoDup (map p_name ps) -> In p ps -> (i < Z.to_nat p.(p_quantity))%nat ->
  dget (fold_left (fun m panel =>
    fold_left (fun m i =>
      dset m (unit_id panel.(p_name) i)
        {| pd_name := panel.(p_name); pd_width := panel.(p_width);
           pd_height := panel.(p_height); pd_grain := panel.(p_grain) |})
      (range panel.(p_quantity)) m) ps m) (unit_id p.(p_name) i)
  = Some {| pd_name := p.(p_name); pd_width := p.(p_width);
            pd_height := p.(p_height); pd_grain := p.(p_grain) |}.
Proof.
  revert m. induction ps as [|p' ps IH]; intros m ND Hin Hi; simpl in *; [contradiction|].
  inversion ND as [|? ? Hn ND']; subst.
  destruct Hin as [<-|Hin]; [|exact (IH _ ND' Hin Hi)].
  rewrite panel_mapping_other by exact Hn. rewrite dget_fold_set.
  replace (existsb _ _) with true; [reflexivity|]. symmetry.
  apply existsb_eqb_in, in_map. unfold range. apply in_seq. lia.
Qed.

(** X6.  The keys of the panel index are exactly the ids of the
    expanded panel units, and the keys of the item index exactly the
    ids of the expanded item units (whatever the names and quantities). *)
Theorem index_domains (ps : list PanelInput) (its : list ItemInput) (panel : PanelInput) k :
  (dget (_create_panel_mapping ps) k <> None <-> In k (map panel_id (_expand_panels ps))) /\
  (dget (_create_item_mapping its panel) k <> None
   <-> In k (map item_id (_expand_items its panel))).
Proof.
  rewrite expand_panels_ids, expand_items_ids. split.
  - unfold _create_panel_mapping. rewrite panel_mapping_dom. simpl. tauto.
  - unfold _create_item_mapping. rewrite item_mapping_dom. simpl. tauto.
Qed.

(** X7.  When the panel specs have distinct names, the expanded panel
    units have distinct ids; likewise for the item specs and item units. *)
Theorem expanded_ids_nodup (ps : list PanelInput) (its : list ItemInput) (panel : PanelInput) :
  (NoDup (map p_name ps) -> NoDup (map panel_id (_expand_panels ps))) /\
  (NoDup (map i_name its) -> NoDup (map item_id (_expand_items its panel))).
Proof.
  rewrite expand_panels_ids, expand_items_ids. split; intro ND.
  - exact (unit_ids_nodup p_name p_quantity ps ND).
  - exact (unit_ids_nodup i_name i_quantity its ND).
Qed.

(** X8.  When names are distinct, the index entry of every expanded unit
    is the metadata of the spec the unit was expanded from, and its
    dimensions (oriented against the first panel for items) and rotation
    flag agree with the unit's. *)
Theorem index_entries_match_units (ps : list PanelInput) (its : list ItemInput)
  (panel : PanelInput) :
  (NoDup (map p_name ps) -> forall u, In u (_expand_panels ps) ->
     exists p, In p ps /\
       dget (_create_panel_mapping ps) u.(panel_id)
       = Some {| pd_name := p.(p_name); pd_width := u.(panel_width);
                 pd_height := u.(panel_height); pd_grain := p.(p_grain) |} /\
       u.(panel_width) = p.(p_width) /\ u.(panel_height) = p.(p_height)) /\
  (NoDup (map i_name its) -> forall u, In u (_expand_items its panel) ->
     exists it, In it its /\
       dget (_create_item_mapping its panel) u.(item_id)
       = Some (item_details it (_transform_item_for_calculation it panel)) /\
       u.(item_width) = (_transform_item_for_calculation it panel).(t_width) /\
       u.(item_height) = (_transform_item_for_calculation it panel).(t_height) /\
       u.(can_rotate) = it.(i_isRotate)).
Proof.
  split; intros ND u Hu.
  - unfold _expand_panels in Hu. apply in_flat_map in Hu. destruct Hu as [p [Hp Hu]].
    apply in_map_iff in Hu. destruct Hu as [i [<- Hi]]. unfold range in Hi.
    apply in_seq in Hi. exists p. simpl. split; [exact Hp|split; [|tauto]].
    unfold _create_panel_mapping. apply panel_mapping_lookup; [exact ND|exact Hp|lia].
  - unfold _expand_items in Hu. apply in_flat_map in Hu. destruct Hu as [it [Hit Hu]].
    apply in_map_iff in Hu. destruct Hu as [i [<- Hi]]. unfold range in Hi.
    apply in_seq in Hi. exists it. simpl. split; [exact Hit|split; [|tauto]].
    unfold _create_item_mapping. apply item_mapping_lookup; [exact ND|exact Hit|lia].
Qed.

(** ** The loop as a whole *)

Lemma loop_last packer clock m fuel k cur r :
  calc_loop packer clock m fuel k cur = Some r ->
  exists j a, nth_error (attempts packer clock m fuel k cur) j = Some a /\
    List.length (attempts packer clock m fuel k cur) = S j /\
    attempt packer clock m (k + j) a = Done r.
Proof.
  revert k cur. induction fuel as [|fuel IH]; intros k cur H; simpl in *; [discriminate|].
  destruct (attempt packer clock m k cur) as [r'|next] eqn:E.
  - injection H as <-. exists 0%nat, cur. rewrite Nat.add_0_r. auto.
  - destruct (IH _ _ H) as [j [a [N [L A]]]]. exists (S j), a. simpl. rewrite L.
    split; [exact N|split; [reflexivity|]].
    replace (k + S j)%nat with (S k + j)%nat by lia. exact A.
Qed.

Lemma attempt_done_cases packer clock m k a r :
  attempt packer clock m k a = Done r ->
  (exists op rj resp, attempt_params a = inr op /\ packer m op = Packed rj /\
     transform_result rj a = inr resp /\ r = with_time resp (clock k)) \/
  (exists msg, r = failure msg (Some (clock k))).
Proof.
  unfold attempt. destruct (attempt_params a) as [e|op].
  { intro H. injection H as <-. right. eauto. }
  destruct (packer m op) as [rj|msg|e] eqn:P.
  - destruct (transform_result rj a) as [e|resp] eqn:T; intro H; injection H as <-;
      [right; eauto|left; eauto 7].
  - destruct (_ <? 50); [discriminate|]. intro H. injection H as <-. right. eauto.
  - intro H. injection H as <-. right. eauto.
Qed.

Lemma transform_result_success rj up resp :
  transform_result rj up = inr resp ->
  resp.(success) = true /\ resp.(error) = None /\ resp.(calculation_time) = None.
Proof.
  unfold transform_result, bind. destruct (first_panel (panels up)) as [e|p0]; [discriminate|].
  destruct (mfold (process_used _ _ p0) (opt_list (r_used rj)) []) as [e|pd1];
    [discriminate|].
  destruct (mfold (process_unused _) (opt_list (r_unused rj)) pd1) as [e|pd2];
    [discriminate|].
  intro H. injection H as <-. auto.
Qed.

(** X9.  A successful response of the retry loop comes from the loop's
    last attempt: the packer returned a result for that attempt's
    parameters, [transform_result] assembled it without error, and the
    response is that assembly stamped with the time of that attempt. *)
Theorem loop_success_from_packer (packer : Method -> Params -> PackOutcome)
  (clock : nat -> num) (m : Method) (fuel k : nat) (cur : UserParams)
  (r : CalculationResponse) :
  calc_loop packer clock m fuel k cur = Some r -> r.(success) = true ->
  exists j a op rj resp,
    nth_error (attempts packer clock m fuel k cur) j = Some a /\
    List.length (attempts packer clock m fuel k cur) = S j /\
    attempt_params a = inr op /\ packer m op = Packed rj /\
    transform_result rj a = inr resp /\
    r = with_time resp (clock (k + j)%nat) /\ r.(error) = None.
Proof.
  intros H Hs. destruct (loop_last _ _ _ _ _ _ _ H) as [j [a [N [L A]]]].
  destruct (attempt_done_cases _ _ _ _ _ _ A) as [[op [rj [resp [P1 [P2 [P3 ->]]]]]]|[msg ->]];
    [|discriminate].
  exists j, a, op, rj, resp. repeat split; try assumption.
  simpl. exact (proj1 (proj2 (transform_result_success _ _ _ P3))).
Qed.

(** X10.  An unsuccessful response of the retry loop carries no partial
    result: no panels, no cuts, an empty summary, an error message, and
    the time of the loop's last attempt. *)
Theorem loop_failure_payload (packer : Method -> Params -> PackOutcome)
  (clock : nat -> num) (m : Method) (fuel k : nat) (cur : UserParams)
  (r : CalculationResponse) :
  calc_loop packer clock m fuel k cur = Some r -> r.(success) = false ->
  exists j msg, List.length (attempts packer clock m fuel k cur) = S j /\
    r = failure msg (Some (clock (k + j)%nat)) /\
    r.(resp_panels) = [] /\ r.(cuts) = [] /\ r.(summary) = [] /\ r.(error) = Some msg.
Proof.
  intros H Hs. destruct (loop_last _ _ _ _ _ _ _ H) as [j [a [N [L A]]]].
  destruct (attempt_done_cases _ _ _ _ _ _ A) as [[op [rj [resp [P1 [P2 [P3 ->]]]]]]|[msg ->]].
  - simpl in Hs. rewrite (proj1 (transform_result_success _ _ _ P3)) in Hs. discriminate.
  - exists j, msg. repeat split; assumption || reflexivity.
Qed.

(** X11.  Attempt [j] of the loop (counting from 0) runs the starting
    request with every panel quantity raised by [j]; its items are the
    starting items and its total is the starting total plus [j] times the
    number of panel specs. *)
Theorem attempt_quantities (packer : Method -> Params -> PackOutcome)
  (clock : nat -> num) (m : Method) (fuel k j : nat) (cur a : UserParams) :
  nth_error (attempts packer clock m fuel k cur) j = Some a ->
  map p_quantity a.(panels) = map (fun q => q + Z.of_nat j) (map p_quantity cur.(panels)) /\
  map p_name a.(panels) = map p_name cur.(panels) /\
  a.(items) = cur.(items) /\
  _get_total_panel_quantity a
  = _get_total_panel_quantity cur + Z.of_nat j * Z.of_nat (List.length cur.(panels)).
Proof.
  revert k j cur. induction fuel as [|fuel IH]; intros k j cur H; simpl in H;
    [destruct j; discriminate|].
  destruct j as [|j].
  - injection H as <-. rewrite map_map. simpl.
    split; [apply map_ext; intro; lia|split; [reflexivity|split; [reflexivity|lia]]].
  - destruct (attempt packer clock m k cur) as [r|next] eqn:E; [destruct j; discriminate|].
    destruct (attempt_retry_inv _ _ _ _ _ _ E) as [-> _].
    destruct (IH _ _ _ H) as [Q [Nm [I T]]].
    assert (Hl : List.length (_increment_panel_quantities cur 1).(panels)
                 = List.length cur.(panels)) by (simpl; apply length_map).
    rewrite Hl, total_increment in T. rewrite T.
    unfold _increment_panel_quantities in Q, Nm, I. simpl in Q, Nm, I.
    rewrite map_map in Q, Nm. rewrite map_map in Q. simpl in Q, Nm.
    split; [rewrite Q, map_map; apply map_ext; intro; lia|].
    split; [exact Nm|split; [exact I|lia]].
Qed.

Lemma infeasible_loop_ceiling (packer : Method -> Params -> PackOutcome)
  (clock : nat -> num) (m : Method) (fuel k : nat) (cur : UserParams) :
  cur.(panels) <> [] ->
  (forall op, exists msg, packer m op = Unresolvable msg) ->
  (Z.to_nat (50 - _get_total_panel_quantity cur) < fuel)%nat ->
  exists j T,
    calc_loop packer clock m fuel k cur = Some (failure (ceiling_message T) (Some (clock (k + j)%nat))) /\
    T = _get_total_panel_quantity cur + Z.of_nat j * Z.of_nat (List.length cur.(panels)) /\
    50 <= T /\
    (50 <= _get_total_panel_quantity cur -> j = 0%nat) /\
    (_get_total_panel_quantity cur < 50 -> T < 50 + Z.of_nat (List.length cur.(panels))).
Proof.
  intros Hne Hinf. revert k cur Hne. induction fuel as [|fuel IH]; intros k cur Hne Hf;
    [lia|].
  assert (Hn : (1 <= List.length cur.(panels))%nat)
    by (destruct (panels cur); [contradiction|simpl; lia]).
  assert (Hop : exists op, attempt_params cur = inr op).
  { unfold attempt_params, bind. destruct (panels cur); [contradiction|simpl; eauto]. }
  destruct Hop as [op Hop]. destruct (Hinf op) as [msg P].
  cbn [calc_loop]. unfold attempt at 1. rewrite Hop, P.
  destruct (_get_total_panel_quantity cur <? 50) eqn:L.
  - apply Z.ltb_lt in L.
    assert (Hne' : (_increment_panel_quantities cur 1).(panels) <> []).
    { unfold _increment_panel_quantities. simpl. destruct (panels cur); [contradiction|discriminate]. }
    assert (Hl : List.length (_increment_panel_quantities cur 1).(panels) = List.length cur.(panels))
      by (simpl; apply length_map).
    pose proof (total_increment cur 1) as Ht.
    destruct (IH (S k) _ Hne') as [j [T [C [HT [H50 [H0 Hlt]]]]]]; [lia|].
    exists (S j), T. rewrite Hl, Ht in *.
    split; [replace (k + S j)%nat with (S k + j)%nat by lia; exact C|].
    split; [lia|split; [exact H50|split; [lia|]]].
    intros _. destruct (Z.lt_ge_cases (_get_total_panel_quantity cur + 1 * Z.of_nat (List.length (panels cur))) 50) as [Lt|Ge].
    + exact (Hlt Lt).
    + rewrite (H0 Ge) in HT. lia.
  - apply Z.ltb_ge in L. exists 0%nat, (_get_total_panel_quantity cur).
    rewrite Nat.add_0_r. repeat split; try lia.
Qed.

(** X12.  When the packer declares every attempt infeasible and the
    request has a panel spec, the loop (given enough passes) ends with the
    ceiling failure at the time of its last attempt [j]: the reported total
    [T] is the starting total plus [j] times the number of panel specs,
    [T >= 50], no retry happens when the start is already at 50 or more,
    and otherwise [T] stays below [50] plus the number of specs. *)
Theorem always_infeasible_ceiling (packer : Method -> Params -> PackOutcome)
  (clock : nat -> num) (m : Method) (fuel k : nat) (cur : UserParams) :
  cur.(panels) <> [] ->
  (forall op, exists msg, packer m op = Unresolvable msg) ->
  (Z.to_nat (50 - _get_total_panel_quantity cur) < fuel)%nat ->
  exists j T,
    calc_loop packer clock m fuel k cur = Some (failure (ceiling_message T) (Some (clock (k + j)%nat))) /\
    T = _get_total_panel_quantity cur + Z.of_nat j * Z.of_nat (List.length cur.(panels)) /\
    50 <= T /\
    (50 <= _get_total_panel_quantity cur -> j = 0%nat) /\
    (_get_total_panel_quantity cur < 50 -> T < 50 + Z.of_nat (List.length cur.(panels))).
Proof. exact (infeasible_loop_ceiling packer clock m fuel k cur). Qed.

(** X13.  When no panel quantity is negative, the packer receives exactly
    [_get_total_panel_quantity] panel units; the number of item units is
    the sum of the item quantities, a non-positive quantity giving none. *)
Theorem expansion_size (up : UserParams) (panel : PanelInput) :
  (Forall (fun p => 0 <= p.(p_quantity)) up.(panels) ->
   Z.of_nat (List.length (_expand_panels up.(panels))) = _get_total_panel_quantity up) /\
  List.length (_expand_items up.(items) panel)
  = list_sum (map (fun it => Z.to_nat it.(i_quantity)) up.(items)).
Proof.
  split.
  - unfold _get_total_panel_quantity. induction (panels up) as [|p ps IH]; intro F;
      [reflexivity|].
    inversion F as [|? ? Hp F']; subst.
    unfold _expand_panels in *. simpl. rewrite length_app, length_map, Nat2Z.inj_add, IH by exact F'.
    unfold range. rewrite length_seq. lia.
  - induction (items up) as [|it its IH]; [reflexivity|].
    unfold _expand_items in *. simpl. rewrite length_app, length_map, IH.
    unfold range. rewrite length_seq. reflexivity.
Qed.

(** X14.  Displaying a placed item never adds or drops edge banding: the
    displayed borders have as many banded edges as the borders of the
    item's index entry (the all-false default for an unknown item), and
    the displayed engraved line is ["none"] iff the entry's is. *)
Theorem display_preserves_banding (u : UsedJson) (im : dict ItemDetails) (panel : PanelInput) :
  let d := _transform_used_item_for_display u im panel in
  banded_edges d.(ui_borders)
  = banded_edges (match dget im u.(uj_item) with
                  | Some it => it.(d_borders) | None => default_borders end) /\
  (d.(ui_engraved_line) = ENone <->
   match dget im u.(uj_item) with
   | Some it => it.(d_engraved_line) | None => ENone end = ENone).
Proof.
  unfold _transform_used_item_for_display. cbv zeta.
  destruct (dget im (uj_item u)) as [it|];
    [|destruct (grain_eqb Vertical (p_grain panel)); simpl; split; reflexivity || tauto].
  destruct (negb (grain_eqb (d_grain it) (p_grain panel))); simpl.
  - split.
    + unfold banded_edges, bget, dget_default. simpl.
      destruct (dget (d_borders it) "top"), (dget (d_borders it) "right"),
        (dget (d_borders it) "bottom"), (dget (d_borders it) "left"); try destruct b;
        try destruct b0; try destruct b1; try destruct b2; reflexivity.
    + destruct (d_engraved_line it); simpl; split; congruence.
  - tauto.
Qed.

(** X15.  Through the endpoint, a request with a single panel spec and a
    packer that declares every attempt infeasible always ends with the
    ceiling failure at exactly 50 panels, stamped with the time of the
    50th attempt, whatever quantity the client asked for. *)
Theorem api_infeasible_single_panel (packer : Method -> Params -> PackOutcome)
  (clock : nat -> num) (up : UserParams) (method : string) (fuel : nat)
  (p : PanelInput) (m : Method) :
  up.(panels) = [p] -> method_map method = Some m ->
  (forall op, exists msg, packer m op = Unresolvable msg) -> (50 <= fuel)%nat ->
  snd (calculate_optimization packer clock up method fuel)
  = Some (failure (ceiling_message 50) (Some (clock 49%nat))).
Proof.
  intros Hp Hm Hinf Hf. unfold calculate_optimization. rewrite Hp. simpl.
  unfold calculate. rewrite Hm.
  set (up' := {| cut_width := _; min_initial_usage := _; panels := _; items := _ |}).
  destruct (infeasible_loop_ceiling packer clock m fuel 0 up') as [j [T [C [HT [H50 [_ Hlt]]]]]];
    [discriminate|exact Hinf|unfold _get_total_panel_quantity; simpl; lia|].
  assert (E1 : _get_total_panel_quantity up' = 1) by reflexivity.
  assert (E2 : List.length up'.(panels) = 1%nat) by reflexivity.
  rewrite E1, E2 in *. assert (T = 50) by lia. assert (j = 49%nat) by lia. subst. exact C.
Qed.

Lemma item_mapping_untouched (panel : PanelInput) (l : list ItemInput) m n i :
  (forall it, In it l -> it.(i_name) = n -> ~ (i < Z.to_nat it.(i_quantity))%nat) ->
  dget (fold_left (add_item_units panel) l m) (unit_id n i) = dget m (unit_id n i).
Proof.
  revert m. induction l as [|it l IH]; intros m Hn; simpl; [reflexivity|].
  rewrite IH by (intros; apply Hn; simpl; auto).
  unfold add_item_units. rewrite dget_fold_units.
  destruct (existsb _ _) eqn:E; [|reflexivity].
  apply existsb_eqb_in, in_map_iff in E. destruct E as [j [E Hj]].
  apply unit_id_inj in E. destruct E as [E <-]. unfold range in Hj. apply in_seq in Hj.
  exfalso. apply (Hn it); [left; reflexivity|exact E|lia].
Qed.

Lemma panel_mapping_untouched (l : list PanelInput) m n i :
  (forall p, In p l -> p.(p_name) = n -> ~ (i < Z.to_nat p.(p_quantity))%nat) ->
  dget (fold_left (fun m panel =>
    fold_left (fun m i =>
      dset m (unit_id panel.(p_name) i)
        {| pd_name := panel.(p_name); pd_width := panel.(p_width);
           pd_height := panel.(p_height); pd_grain := panel.(p_grain) |})
      (range panel.(p_quantity)) m) l m) (unit_id n i) = dget m (unit_id n i).
Proof.
  revert m. induction l as [|p l IH]; intros m Hn; simpl; [reflexivity|].
  rewrite IH by (intros; apply Hn; simpl; auto).
  rewrite dget_fold_set.
  destruct (existsb _ _) eqn:E; [|reflexivity].
  apply existsb_eqb_in, in_map_iff in E. destruct E as [j [E Hj]].
  apply unit_id_inj in E. destruct E as [E <-]. unfold range in Hj. apply in_seq in Hj.
  exfalso. apply (Hn p); [left; reflexivity|exact E|lia].
Qed.

(** X16.  With repeated spec names the indexes keep the last write: the
    entry of id [name_(i+1)] is built from the last spec of that name
    whose quantity covers unit [i]; earlier specs of the name are lost. *)
Theorem index_last_spec_wins (panel : PanelInput) :
  (forall l1 l2 it i,
     (i < Z.to_nat it.(i_quantity))%nat ->
     (forall it', In it' l2 -> it'.(i_name) = it.(i_name) ->
        ~ (i < Z.to_nat it'.(i_quantity))%nat) ->
     dget (_create_item_mapping (l1 ++ it :: l2) panel) (unit_id it.(i_name) i)
     = Some (item_details it (_transform_item_for_calculation it panel))) /\
  (forall l1 l2 p i,
     (i < Z.to_nat p.(p_quantity))%nat ->
     (forall p', In p' l2 -> p'.(p_name) = p.(p_name) ->
        ~ (i < Z.to_nat p'.(p_quantity))%nat) ->
     dget (_create_panel_mapping (l1 ++ p :: l2)) (unit_id p.(p_name) i)
     = Some {| pd_name := p.(p_name); pd_width := p.(p_width);
               pd_height := p.(p_height); pd_grain := p.(p_grain) |}).
Proof.
  split.
  - intros l1 l2 it i Hi Hl. unfold _create_item_mapping. rewrite fold_left_app. simpl.
    rewrite item_mapping_untouched by exact Hl.
    unfold add_item_units. rewrite dget_fold_units.
    replace (existsb _ _) with true; [reflexivity|]. symmetry.
    apply existsb_eqb_in, in_map. unfold range. apply in_seq. lia.
  - intros l1 l2 p i Hi Hl. unfold _create_panel_mapping. rewrite fold_left_app. simpl.
    rewrite panel_mapping_untouched by exact Hl.
    rewrite dget_fold_set.
    replace (existsb _ _) with true; [reflexivity|]. symmetry.
    apply existsb_eqb_in, in_map. unfold range. apply in_seq. lia.
Qed.

(** ** Instances of the further properties *)

Lemma transform_result_sorted_witness :
  exists resp,
    transform_result (raw_result [placement "P_2" "I_1"; placement "P_1" "I_1"]) request_q3
    = inr resp /\ Sorted id_lt resp.(resp_panels).
Proof.
  destruct (transform_result (raw_result [placement "P_2" "I_1"; placement "P_1" "I_1"])
              request_q3) as [e|resp] eqn:E; [vm_compute in E; discriminate|].
  exists resp. split; [reflexivity|]. exact (transform_result_sorted _ _ _ E).
Defined.

Lemma transform_result_panel_ids_witness :
  exists resp,
    transform_result (raw_result [placement "P_2" "I_1"; placement "P_1" "I_1"]) request_q3
    = inr resp /\ NoDup (map po_panel_id resp.(resp_panels)).
Proof.
  destruct (transform_result (raw_result [placement "P_2" "I_1"; placement "P_1" "I_1"])
              request_q3) as [e|resp] eqn:E; [vm_compute in E; discriminate|].
  exists resp. split; [reflexivity|]. exact (proj1 (transform_result_panel_ids _ _ _ E)).
Defined.

Lemma transform_result_groups_witness :
  exists resp p0,
    transform_result (raw_result [placement "P_2" "I_1"; placement "P_1" "I_1"]) request_q3
    = inr resp /\ first_panel request_q3.(panels) = inr p0.
Proof.
  destruct (transform_result (raw_result [placement "P_2" "I_1"; placement "P_1" "I_1"])
              request_q3) as [e|resp] eqn:E; [vm_compute in E; discriminate|].
  destruct (transform_result_groups _ _ _ E) as [p0 [Hp _]].
  exists resp, p0. split; [reflexivity|exact Hp].
Defined.

Lemma transform_result_counts_witness :
  exists resp,
    transform_result (raw_result [placement "P_2" "I_1"; placement "P_1" "I_1"]) request_q3
    = inr resp /\ list_sum (map (fun p => List.length p.(po_used_items)) resp.(resp_panels)) = 2%nat.
Proof.
  destruct (transform_result (raw_result [placement "P_2" "I_1"; placement "P_1" "I_1"])
              request_q3) as [e|resp] eqn:E; [vm_compute in E; discriminate|].
  exists resp. split; [reflexivity|]. exact (proj1 (transform_result_counts _ _ _ E)).
Defined.

Lemma transform_result_failure_witness :
  (exists e, transform_result (raw_result [placement "Q_1" "I_1"]) request_B = inl e) /\
  transform_result (raw_result [])
    {| cut_width := 3; min_initial_usage := false; panels := []; items := [item_B] |}
  = inl index_error.
Proof.
  split.
  - apply (proj2 (proj2 (proj2 (transform_result_failure (raw_result [placement "Q_1" "I_1"])
             request_B) ltac:(simpl; discriminate)))).
    exists "Q_1". split; [simpl; auto|reflexivity].
  - exact (proj1 (transform_result_failure (raw_result [])
      {| cut_width := 3; min_initial_usage := false; panels := []; items := [item_B] |}) eq_refl).
Defined.

Lemma expanded_ids_nodup_witness :
  NoDup (map panel_id (_expand_panels request_q3.(panels))) /\
  NoDup (map item_id (_expand_items [item_B; {| i_name := "J"; i_width := 10; i_height := 20;
      i_isRotate := true; i_quantity := 2; i_grain := Vertical; i_engraved_line := ENone;
      i_borders := default_borders |}] panel_V)).
Proof.
  split.
  - apply (proj1 (expanded_ids_nodup request_q3.(panels) [] panel_V)).
    constructor; [simpl; tauto|constructor].
  - apply (proj2 (expanded_ids_nodup [] _ panel_V)).
    constructor; [simpl; intros [H|[]]; discriminate|constructor; [simpl; tauto|constructor]].
Defined.

Lemma index_entries_match_units_witness :
  exists d, dget (_create_panel_mapping request_q3.(panels)) "P_2" = Some d /\ d.(pd_width) = 2440.
Proof.
  destruct (proj1 (index_entries_match_units request_q3.(panels) request_q3.(items) panel_V)
              ltac:(constructor; [simpl; tauto|constructor])
              {| panel_id := "P_2"; panel_width := 2440; panel_height := 1220 |}
              ltac:(simpl; right; left; reflexivity)) as [p [_ [E _]]].
  eexists. split; [exact E|reflexivity].
Defined.

Lemma loop_success_from_packer_witness :
  exists r, calc_loop (packer_needing 2 (raw_result [placement "P_1" "I_1"])) clock_ticks
              GREEDY 5 0 request_B = Some r /\ r.(error) = None.
Proof.
  destruct (calc_loop (packer_needing 2 (raw_result [placement "P_1" "I_1"])) clock_ticks
              GREEDY 5 0 request_B) as [r|] eqn:E; [|vm_compute in E; discriminate].
  exists r. split; [reflexivity|].
  assert (S : r.(success) = true) by (vm_compute in E; injection E as <-; reflexivity).
  destruct (loop_success_from_packer _ _ _ _ _ _ _ E S)
    as [j [a [op [rj [resp [_ [_ [_ [_ [_ [_ Herr]]]]]]]]]]].
  exact Herr.
Defined.

Lemma loop_failure_payload_witness :
  exists r, calc_loop (packer_failing index_error) clock_ticks GREEDY 5 0 request_B = Some r /\
            r.(resp_panels) = [].
Proof.
  destruct (calc_loop (packer_failing index_error) clock_ticks GREEDY 5 0 request_B)
    as [r|] eqn:E; [|vm_compute in E; discriminate].
  exists r. split; [reflexivity|].
  assert (S : r.(success) = false) by (vm_compute in E; injection E as <-; reflexivity).
  destruct (loop_failure_payload _ _ _ _ _ _ _ E S) as [j [msg [_ [_ [P _]]]]].
  exact P.
Defined.

Lemma attempt_quantities_witness :
  exists a, nth_error (attempts (packer_needing 3 (raw_result [placement "P_1" "I_1"]))
                         clock_ticks GREEDY 5 0 request_B) 2 = Some a /\
            map p_quantity a.(panels) = [3].
Proof.
  destruct (nth_error (attempts (packer_needing 3 (raw_result [placement "P_1" "I_1"]))
                         clock_ticks GREEDY 5 0 request_B) 2) as [a|] eqn:E;
    [|vm_compute in E; discriminate].
  exists a. split; [reflexivity|].
  destruct (attempt_quantities _ _ _ _ _ _ _ _ E) as [Q _]. rewrite Q. reflexivity.
Defined.

Lemma always_infeasible_ceiling_witness :
  exists j T, calc_loop packer_infeasible clock_ticks GREEDY 50 0 request_B
              = Some (failure (ceiling_message T) (Some (clock_ticks (0 + j)%nat))) /\ T = 50.
Proof.
  destruct (always_infeasible_ceiling packer_infeasible clock_ticks GREEDY 50 0 request_B
              ltac:(simpl; discriminate) ltac:(intro; eexists; reflexivity)
              ltac:(apply Nat.ltb_lt; vm_compute; reflexivity))
    as [j [T [C [HT [H50 [_ Hlt]]]]]].
  exists j, T. split; [exact C|].
  assert (E1 : _get_total_panel_quantity request_B = 1) by reflexivity.
  assert (E2 : List.length request_B.(panels) = 1%nat) by reflexivity.
  rewrite E1, E2 in *. specialize (Hlt ltac:(lia)). lia.
Defined.

Lemma expansion_size_witness :
  Z.of_nat (List.length (_expand_panels request_q3.(panels))) = 3.
Proof.
  rewrite (proj1 (expansion_size request_q3 panel_V) ltac:(constructor; [cbn; lia|constructor])).
  reflexivity.
Defined.

Lemma api_infeasible_single_panel_witness :
  snd (calculate_optimization packer_infeasible clock_ticks request_q3 "greedy" 50)
  = Some (failure (ceiling_message 50) (Some (clock_ticks 49%nat))).
Proof.
  apply (api_infeasible_single_panel packer_infeasible clock_ticks request_q3 "greedy" 50
           (hd panel_V request_q3.(panels)) GREEDY);
    [reflexivity|reflexivity|intro; eexists; reflexivity|lia].
Defined.

Lemma index_last_spec_wins_witness :
  dget (_create_item_mapping [item_B; item_V] panel_V) "I_1"
  = Some (item_details item_V (_transform_item_for_calculation item_V panel_V)).
Proof.
  apply (proj1 (index_last_spec_wins panel_V) [item_B] [] item_V 0%nat);
    [simpl; lia|intros ? []].
Defined.
